(** * Glow AI Agent (src/main.py): a shallow embedding of the content pipeline

    Strings are modelled as Rocq [string]s (byte strings); the string
    operations of Python used by the code ([str.title], [str.lower],
    [str.split], slicing, [in]) are written out for the ASCII range.
    [random.choice] is modelled by an index argument: [pick i l] is the
    element at position [i mod len l], so every choice of the source is
    reachable and every index gives one. *)

From Stdlib Require Import String Ascii List Arith Lia Bool.
From Stdlib Require Import Sorting.Sorted Sorting.Permutation.
Import ListNotations.
Open Scope string_scope.
Open Scope nat_scope.

(** ** Python string helpers *)

Definition chr (n : nat) : string := String (ascii_of_nat n) EmptyString.

(** A double quote and a newline, used to write the HTML templates. *)
Definition q : string := chr 34.
Definition nl : string := chr 10.

Definition is_upper (c : ascii) : bool :=
  let n := nat_of_ascii c in (65 <=? n) && (n <=? 90).
Definition is_lower (c : ascii) : bool :=
  let n := nat_of_ascii c in (97 <=? n) && (n <=? 122).
Definition to_lower_c (c : ascii) : ascii :=
  if is_upper c then ascii_of_nat (nat_of_ascii c + 32) else c.
Definition to_upper_c (c : ascii) : ascii :=
  if is_lower c then ascii_of_nat (nat_of_ascii c - 32) else c.

(** [str.lower] *)
Fixpoint lower (s : string) : string :=
  match s with
  | EmptyString => EmptyString
  | String c s' => String (to_lower_c c) (lower s')
  end.

(** [str.title] on ASCII text: a cased character following a cased one is
    lowered, one following an uncased one (or at the start) is raised.
    Strings are byte strings here, so the model is exact for ASCII text,
    where a byte is a character; bytes outside ASCII are left unchanged
    and uncased, whereas Python's [str.title] also cases non-ASCII letters
    and can lengthen the text ('ß' becomes 'Ss'). *)
Fixpoint title_aux (prev_cased : bool) (s : string) : string :=
  match s with
  | EmptyString => EmptyString
  | String c s' =>
      if is_upper c || is_lower c then
        String (if prev_cased then to_lower_c c else to_upper_c c)
               (title_aux true s')
      else String c (title_aux false s')
  end.
Definition title (s : string) : string := title_aux false s.

(** Whitespace for [str.split()] with no argument (ASCII range). *)
Definition is_space (c : ascii) : bool :=
  let n := nat_of_ascii c in
  (n =? 32) || ((9 <=? n) && (n <=? 13)) || ((28 <=? n) && (n <=? 31)).

(** [str.split()]: maximal runs of non-whitespace, in order. *)
Fixpoint split_aux (cur : string) (s : string) : list string :=
  match s with
  | EmptyString => if String.eqb cur "" then [] else [cur]
  | String c s' =>
      if is_space c then
        ((if String.eqb cur "" then [] else [cur]) ++ split_aux "" s')%list
      else split_aux (cur ++ String c EmptyString) s'
  end.
Definition split (s : string) : list string := split_aux "" s.

(** Python's [a in b] on strings. *)
Fixpoint contains (needle hay : string) : bool :=
  String.prefix needle hay ||
  match hay with
  | EmptyString => false
  | String _ hay' => contains needle hay'
  end.

(** [s[:n]] *)
Fixpoint take (n : nat) (s : string) : string :=
  match n, s with
  | O, _ => EmptyString
  | _, EmptyString => EmptyString
  | S n', String c s' => String c (take n' s')
  end.

(** Decimal rendering of a natural number (for [datetime.now().year]). *)
Fixpoint digits_aux (fuel n : nat) (acc : string) : string :=
  match fuel with
  | O => acc
  | S f =>
      let acc' := String (ascii_of_nat (48 + n mod 10)) acc in
      if n <? 10 then acc' else digits_aux f (n / 10) acc'
  end.
Definition show_nat (n : nat) : string := digits_aux (S n) n "".

(** [random.choice] with the random draw as an argument. *)
Definition pick {A} (i : nat) (l : list A) (d : A) : A :=
  nth (i mod length l) l d.

(** ** Config *)

Definition MAX_TITLE_LENGTH : nat := 60.
Definition META_DESC_LENGTH : nat := 155.
Definition MIN_KEYWORD_INTEREST : nat := 70.

(** ** ContentGenerator.generate_seo_title *)

Definition title_templates (year : nat) (keyword : string) : list string :=
  [ title keyword ++ ": Complete Guide for " ++ show_nat year;
    "The Ultimate " ++ title keyword ++ " Guide That Actually Works";
    title keyword ++ ": Step-by-Step Tutorial + Tips";
    "How to Master " ++ title keyword ++ " Like a Pro";
    "Everything You Need to Know About " ++ title keyword;
    title keyword ++ ": Beginner's Guide + Product Recs";
    "The Best " ++ title keyword ++ " Tips for Glowing Skin" ].

Definition short_title_templates (keyword : string) : list string :=
  [ title keyword ++ ": Complete Guide";
    "Ultimate " ++ title keyword ++ " Guide";
    title keyword ++ ": Tips That Work" ].

(** [r1], [r2]: the two [random.choice] draws. *)
Definition generate_seo_title (year r1 r2 : nat) (keyword : string) : string :=
  let t := pick r1 (title_templates year keyword) "" in
  if MAX_TITLE_LENGTH <? String.length t
  then pick r2 (short_title_templates keyword) ""
  else t.

(** ** ContentGenerator.generate_meta_description *)

Definition meta_templates (keyword : string) : list string :=
  [ "Discover the best " ++ keyword ++ " tips and products. Our complete guide covers everything for glowing, healthy skin. Expert advice + product recommendations inside!";
    "Learn " ++ keyword ++ " like a pro with our step-by-step guide. Includes product recommendations, tips, and everything you need for amazing results.";
    "Master " ++ keyword ++ " with our comprehensive guide. From beginner tips to expert techniques, plus the best products that actually work." ].

Definition generate_meta_description (r : nat) (keyword title_ : string) : string :=
  let meta := pick r (meta_templates keyword) "" in
  let meta := if META_DESC_LENGTH <? String.length meta
              then "Complete " ++ keyword ++ " guide with expert tips, product recommendations, and step-by-step instructions for glowing, healthy skin."
              else meta in
  take META_DESC_LENGTH meta.

(** ** ContentGenerator.generate_labels *)

(** [dict.fromkeys]: keys in insertion order; a repeated key keeps the
    position of its first insertion. *)
Definition fromkeys (l : list string) : list string :=
  fold_left (fun acc x => if existsb (String.eqb x) acc then acc else (acc ++ [x])%list)
            l [].

Definition base_labels : list string :=
  ["beauty"; "skincare"; "beauty tips"; "glow with helen"].

(** [parts]: lower-cased words of the topic longer than two characters. *)
Definition topic_words (keyword : string) : list string :=
  map lower (filter (fun w => 2 <? String.length w) (split keyword)).

(** [contextual]: the category-conditional labels. *)
Definition category_labels (keyword : string) : list string :=
  let c1 := if existsb (fun t => contains t (lower keyword)) ["skincare"; "skin"; "face"]
            then ["skincare routine"; "healthy skin"] else [] in
  let c2 := if existsb (fun t => contains t (lower keyword)) ["makeup"; "beauty"; "cosmetic"]
            then ["makeup tips"; "beauty routine"] else [] in
  let c3 := if contains "routine" (lower keyword) then ["daily routine"] else [] in
  (c1 ++ c2 ++ c3)%list.

Definition generate_labels (keyword : string) : list string :=
  firstn 8 (fromkeys (base_labels ++ topic_words keyword ++ category_labels keyword)%list).

(** The reading of the spec: "deduplicate while preserving first-seen
    order": the element at position [i] is kept exactly when it does not
    occur among the first [i] elements. *)
Definition first_seen (l : list string) : list string :=
  map fst (filter (fun p => negb (existsb (String.eqb (fst p)) (firstn (snd p) l)))
                  (combine l (seq 0 (length l)))).


(** ** ProductDatabase *)

Record product := mkProduct {
  p_name : string; p_id : string; p_price : string; p_rating : string;
  p_category : string }.

Definition skincare_products : list product := [
  mkProduct "CeraVe Foaming Facial Cleanser" "B077TGQZPX" "$12.99" "4.5" "cleanser";
  mkProduct "The Ordinary Niacinamide 10% + Zinc 1%" "B06XHW8TQL" "$7.20" "4.3" "serum";
  mkProduct "Neutrogena Ultra Sheer Sunscreen SPF 55" "B002JAYMEE" "$8.47" "4.4" "sunscreen";
  mkProduct "Olay Regenerist Retinol 24 Night Moisturizer" "B07MVJC3J8" "$18.99" "4.2" "moisturizer";
  mkProduct "Paula's Choice 2% BHA Liquid Exfoliant" "B00949CTQQ" "$29.50" "4.4" "exfoliant";
  mkProduct "La Roche-Posay Toleriane Caring Wash" "B01N7T7JKJ" "$14.99" "4.3" "cleanser";
  mkProduct "Eucerin Daily Protection Face Lotion SPF 30" "B001ET76EE" "$8.97" "4.2" "sunscreen" ].

Definition makeup_products : list product := [
  mkProduct "Maybelline Fit Me Matte Foundation" "B07C2ZS7B8" "$7.99" "4.2" "foundation";
  mkProduct "Urban Decay Naked Eyeshadow Palette" "B004Q8U1ZA" "$54.00" "4.5" "eyeshadow";
  mkProduct "Fenty Beauty Gloss Bomb Universal Lip Luminizer" "B075BYKK7T" "$19.00" "4.3" "lip_gloss";
  mkProduct "L'Or√©al Paris Voluminous Lash Paradise Mascara" "B06Y5ZTQTX" "$8.99" "4.1" "mascara";
  mkProduct "Rare Beauty Soft Pinch Liquid Blush" "B08F7RQ9Q8" "$20.00" "4.4" "blush";
  mkProduct "Charlotte Tilbury Pillow Talk Lipstick" "B07D7R8G5K" "$38.00" "4.6" "lipstick" ].

Definition tools_products : list product := [
  mkProduct "Foreo Luna Mini 3 Face Cleansing Brush" "B07VQZR8DK" "$139.00" "4.0" "cleansing_tool";
  mkProduct "Revlon One-Step Hair Dryer and Volumizer" "B01LSUQSB0" "$59.99" "4.2" "hair_tool";
  mkProduct "Real Techniques Makeup Brush Set" "B004TSF8R6" "$19.99" "4.3" "brushes";
  mkProduct "Jade Roller and Gua Sha Set" "B07L9QZXR3" "$12.99" "4.1" "facial_tool";
  mkProduct "Conair Double-Sided Lighted Makeup Mirror" "B00002N5Z1" "$39.99" "4.2" "mirror" ].

(** [self.products], in dict insertion order. *)
Definition products_table : list (string * list product) :=
  [("skincare", skincare_products); ("makeup", makeup_products);
   ("tools", tools_products)].

Definition all_products : list product := concat (map snd products_table).

(** [ProductDatabase.create_affiliate_link], with
    [config.AMAZON_AFFILIATE_TAG] as [affiliate_tag]. *)
Definition affiliate_url (affiliate_tag : string) (p : product) : string :=
  let base_url := "https://www.amazon.com/dp/" ++ p_id p in
  base_url ++ "/?tag=" ++ affiliate_tag.

Definition create_affiliate_link (affiliate_tag : string) (p : product) : string :=
  "<a href=" ++ q ++ affiliate_url affiliate_tag p ++ q ++
  " target=" ++ q ++ "_blank" ++ q ++ " rel=" ++ q ++ "nofollow sponsored" ++ q ++
  ">" ++ p_name p ++ "</a>".

(** ** Affiliate tagger *)

(** Characters that end a URL in HTML text: whitespace, quotes and angle
    brackets. *)
Definition is_delim (c : ascii) : bool :=
  is_space c || (nat_of_ascii c =? 34) || (nat_of_ascii c =? 39) ||
  (nat_of_ascii c =? 60) || (nat_of_ascii c =? 62).

Fixpoint no_delim (s : string) : bool :=
  match s with
  | EmptyString => true
  | String c s' => negb (is_delim c) && no_delim s'
  end.

(** Modelled from the spec: the Affiliate Tagger (spec 4.3), which has no
    counterpart in src/main.py. A word (a maximal run of non-delimiter
    characters) is a marketplace URL when it is an http(s) URL on an
    amazon domain; it carries the tag parameter when it contains [?tag=] or
    [&tag=]; an untagged marketplace URL gets [&tag=T] or [?tag=T]
    appended according to whether it already has a query string. *)
Definition is_marketplace_url (w : string) : bool :=
  (String.prefix "http://" w || String.prefix "https://" w) && contains "amazon." w.

Definition has_tag_param (w : string) : bool :=
  contains "?tag=" w || contains "&tag=" w.

Definition add_tag (affiliate_tag w : string) : string :=
  if is_marketplace_url w && negb (has_tag_param w)
  then w ++ (if contains "?" w then "&" else "?") ++ "tag=" ++ affiliate_tag
  else w.

(** Modelled from the spec: the tagger's pass over an HTML string, word by
    word; [cur] is the word read so far. *)
Fixpoint tag_aux (affiliate_tag cur s : string) : string :=
  match s with
  | EmptyString => add_tag affiliate_tag cur
  | String c s' =>
      if is_delim c
      then add_tag affiliate_tag cur ++ String c (tag_aux affiliate_tag "" s')
      else tag_aux affiliate_tag (cur ++ String c EmptyString) s'
  end.

Definition tag_html (affiliate_tag html : string) : string :=
  tag_aux affiliate_tag "" html.


(** [random.sample(population, k)] returns [k] elements of the population
    at pairwise distinct positions. It is modelled by drawing one position
    of the remaining pool per element ([r i] is the [i]-th draw) and
    removing it from the pool, which yields exactly the same set of
    possible results. *)
Fixpoint remove_nth {A} (j : nat) (l : list A) : list A :=
  match j, l with
  | _, [] => []
  | O, _ :: l' => l'
  | S j', x :: l' => x :: remove_nth j' l'
  end.

Fixpoint sample {A} (d : A) (r : nat -> nat) (i k : nat) (pool : list A) : list A :=
  match k with
  | O => []
  | S k' =>
      match pool with
      | [] => []
      | _ :: _ =>
          let j := r i mod length pool in
          nth j pool d :: sample d r (S i) k' (remove_nth j pool)
      end
  end.

(** [category_mapping] of [find_relevant_products]. *)
Definition category_mapping : list (string * list string) := [
  ("cleanser", ["cleanser"; "cleansing"; "wash"]);
  ("serum", ["serum"; "vitamin c"; "niacinamide"; "retinol"]);
  ("moisturizer", ["moisturizer"; "cream"; "hydrat"]);
  ("sunscreen", ["sunscreen"; "spf"; "sun protection"]);
  ("foundation", ["foundation"; "base makeup"]);
  ("eyeshadow", ["eyeshadow"; "eye makeup"; "palette"]);
  ("mascara", ["mascara"; "lashes"]);
  ("lipstick", ["lipstick"; "lip"]);
  ("tools", ["tool"; "brush"; "mirror"]) ].

(** [dict.get(k, default)] on an association list. *)
Fixpoint assoc_get {B} (k : string) (m : list (string * B)) (default : B) : B :=
  match m with
  | [] => default
  | (k', v) :: m' => if String.eqb k k' then v else assoc_get k m' default
  end.

(** The two loops of [find_relevant_products] building [relevant]. *)
Definition relevant_products (keyword : string) : list product :=
  let kw := lower keyword in
  flat_map (fun p =>
    let terms := assoc_get (p_category p) category_mapping [] in
    if existsb (fun t => contains t kw) terms then [p]
    else if existsb (fun term => contains term (lower (p_name p))) (split kw) then [p]
    else []) all_products.

(** The deduplication loop by id, with [seen] as a list. *)
Definition dedup_by_id (relevant : list product) : list product :=
  fst (fold_left (fun (st : list product * list string) p =>
         let '(unique, seen) := st in
         if existsb (String.eqb (p_id p)) seen then (unique, seen)
         else ((unique ++ [p])%list, p_id p :: seen))
       relevant ([], [])).

Definition no_product : product := mkProduct "" "" "" "" "".

Definition find_relevant_products (r : nat -> nat) (keyword : string) (count : nat)
  : list product :=
  let relevant := relevant_products keyword in
  let relevant := match relevant with [] => skincare_products | _ => relevant end in
  let unique := dedup_by_id relevant in
  sample no_product r 0 (Nat.min count (length unique)) unique.

(** ** ImageManager *)

Record image := mkImage {
  i_url : string; i_url_medium : string; i_alt : string;
  i_photographer : string; i_photographer_url : string; i_pexels_url : string }.

(** One entry of the [photos] array of a Pexels response. *)
Record photo := mkPhoto {
  ph_src_large : string; ph_src_medium : string; ph_alt : option string;
  ph_photographer : string; ph_photographer_url : string; ph_url : string }.

(** The outcome of [requests.get]: a response with its status code and
    photos, or an exception. *)
Inductive http_outcome :=
| HttpResponse (status : nat) (photos : list photo)
| HttpException.

Definition pexels_prefix : string := "https://images.pexels.com/photos/".

Definition _placeholders (query : string) (count : nat) : list image :=
  let bank := [
    mkImage (pexels_prefix ++ "3762879/pexels-photo-3762879.jpeg?auto=compress&cs=tinysrgb&w=800")
            (pexels_prefix ++ "3762879/pexels-photo-3762879.jpeg?auto=compress&cs=tinysrgb&w=600")
            (query ++ " - Beautiful skincare routine") "Pexels" "https://www.pexels.com" "https://www.pexels.com";
    mkImage (pexels_prefix ++ "3993212/pexels-photo-3993212.jpeg?auto=compress&cs=tinysrgb&w=800")
            (pexels_prefix ++ "3993212/pexels-photo-3993212.jpeg?auto=compress&cs=tinysrgb&w=600")
            (query ++ " - Natural beauty and wellness") "Pexels" "https://www.pexels.com" "https://www.pexels.com";
    mkImage (pexels_prefix ++ "4041392/pexels-photo-4041392.jpeg?auto=compress&cs=tinysrgb&w=800")
            (pexels_prefix ++ "4041392/pexels-photo-4041392.jpeg?auto=compress&cs=tinysrgb&w=600")
            (query ++ " - Glowing healthy skin") "Pexels" "https://www.pexels.com" "https://www.pexels.com" ] in
  firstn count bank.

(** [self.cache]: the memo keyed by [f"{query}_{count}"]. *)
Definition image_cache := list (string * list image).

Fixpoint cache_lookup (k : string) (c : image_cache) : option (list image) :=
  match c with
  | [] => None
  | (k', v) :: c' => if String.eqb k k' then Some v else cache_lookup k c'
  end.

Definition cache_set (k : string) (v : list image) (c : image_cache) : image_cache :=
  (k, v) :: c.

Definition photo_to_image (query : string) (ph : photo) : image :=
  mkImage (ph_src_large ph) (ph_src_medium ph)
    (query ++ " - " ++ match ph_alt ph with Some a => a | None => "Beauty and skincare image" end)
    (ph_photographer ph) (ph_photographer_url ph) (ph_url ph).

(** [ImageManager.search_pexels_images]: the cache is threaded as state;
    [resp] is what the request returns. *)
Definition search_pexels_images (pexels_api_key : string) (cache : image_cache)
  (resp : http_outcome) (query : string) (count : nat) : list image * image_cache :=
  if String.eqb pexels_api_key "" then (_placeholders query count, cache)
  else
    let key := query ++ "_" ++ show_nat count in
    match cache_lookup key cache with
    | Some v => (v, cache)
    | None =>
        match resp with
        | HttpResponse status photos =>
            if status =? 200 then
              let images := map (photo_to_image query) (firstn count photos) in
              (images, cache_set key images cache)
            else (_placeholders query count, cache)
        | HttpException => (_placeholders query count, cache)
        end
    end.


(** ** TrendAnalyzer *)

(** A topic dict; keys absent from the dict are [None]. *)
Record topic := mkTopic {
  t_keyword : string; t_interest : nat; t_competition : option string;
  t_trend : option string; t_source : option string }.

Definition beauty_keywords : list string := [
  "skincare routine"; "makeup trends"; "beauty tips"; "anti aging";
  "acne treatment"; "hair care"; "nail art"; "fashion trends";
  "skincare ingredients"; "makeup tutorial"; "beauty hacks";
  "natural skincare"; "korean skincare"; "retinol"; "niacinamide";
  "vitamin c serum"; "hyaluronic acid"; "face masks"; "sunscreen";
  "glass skin"; "slug life"; "skin cycling"; "dopamine makeup";
  "clean beauty"; "sustainable fashion"; "cruelty free" ].

(** What the pytrends calls give: an exception, or the data frame of
    [interest_over_time] ([None] for a missing frame), as its columns with
    their series. *)
Inductive trends_response :=
| TrendsException
| TrendsFrame (df : option (list (string * list nat))).

Definition df_empty (df : list (string * list nat)) : bool :=
  match df with
  | [] => true
  | (_, series) :: _ => match series with [] => true | _ => false end
  end.

(** [int(df[kw].mean())] on non-negative interest values. *)
Definition series_mean (s : list nat) : nat := fold_left Nat.add s 0 / length s.

Definition series_trend (s : list nat) : string :=
  if hd 0 s <? last s 0 then "rising" else "falling".

(** [TrendAnalyzer.get_google_trends]; [pytrends_ready] says whether a
    [TrendReq] client exists. The result dict maps a keyword to its
    interest and trend. *)
Definition get_google_trends (pytrends_ready : bool) (resp : trends_response)
  (keywords : list string) : list (string * (nat * string)) :=
  if negb pytrends_ready then []
  else match resp with
       | TrendsException => []
       | TrendsFrame None => []
       | TrendsFrame (Some df) =>
           if df_empty df then []
           else flat_map (fun kw =>
                  match find (fun col => String.eqb (fst col) kw) df with
                  | Some (_, series) => [(kw, (series_mean series, series_trend series))]
                  | None => []
                  end) keywords
       end.

(** The seasonal table of [get_pinterest_trends]. *)
Definition seasonal (month : nat) : list string :=
  match month with
  | 12 => ["winter skincare"; "holiday makeup"; "party nails"]
  | 1 => ["new year glow up"; "dry skin remedies"; "detox skincare"]
  | 2 => ["valentine's makeup"; "anti-aging"; "self care routine"]
  | 3 => ["spring skincare"; "fresh makeup"; "allergy skin care"]
  | 4 => ["spring cleaning skincare"; "refresh routine"]
  | 5 => ["mother's day gifts"; "spring trends"; "sun protection"]
  | 6 => ["summer skincare"; "waterproof makeup"; "wedding beauty"]
  | 7 => ["sun care"; "beach waves"; "sweat proof makeup"]
  | 8 => ["back to school"; "quick routines"; "budget beauty"]
  | 9 => ["fall skincare"; "autumn makeup"; "transition routine"]
  | 10 => ["halloween makeup"; "fall trends"; "cozy skincare"]
  | 11 => ["thanksgiving prep"; "dry skin solutions"; "holiday prep"]
  | _ => ["general skincare"; "makeup tips"; "beauty routine"]
  end.

(** [random.randint(75, 95)] is [75 + randbelow(21)]; [r i] is the
    [i]-th draw. *)
Definition get_pinterest_trends (month : nat) (r : nat -> nat) : list topic :=
  map (fun '(i, t) => mkTopic t (75 + r i mod 21) None None (Some "pinterest"))
      (combine (seq 0 (length (seasonal month))) (seasonal month)).

Definition _competition (keyword : string) : string :=
  if length (split keyword) <=? 2 then "high"
  else if contains "tutorial" keyword || contains "guide" keyword then "medium"
  else if 4 <=? length (split keyword) then "low"
  else "medium".

Definition evergreen_topics : list topic := [
  mkTopic "retinol for beginners" 85 (Some "low") (Some "steady") None;
  mkTopic "niacinamide benefits" 78 (Some "medium") (Some "rising") None;
  mkTopic "glass skin routine" 82 (Some "medium") (Some "rising") None;
  mkTopic "affordable skincare dupes" 88 (Some "low") (Some "steady") None;
  mkTopic "korean beauty secrets" 79 (Some "medium") (Some "steady") None ].

(** [list.sort(key=interest, reverse=True)]: a stable sort by descending
    interest (equal interests keep their order). *)
Fixpoint insert_desc (x : topic) (l : list topic) : list topic :=
  match l with
  | [] => [x]
  | y :: l' => if t_interest y <? t_interest x then x :: y :: l' else y :: insert_desc x l'
  end.

Definition sort_desc (l : list topic) : list topic :=
  fold_left (fun acc x => insert_desc x acc) l [].

Definition is_high (c : option string) : bool :=
  match c with Some s => String.eqb s "high" | None => false end.

Definition get_trending_topics (pytrends_ready : bool) (resp : trends_response)
  (month : nat) (r : nat -> nat) : list topic :=
  let g_trends := get_google_trends pytrends_ready resp (firstn 5 beauty_keywords) in
  let topics := flat_map (fun '(kw, (interest, trend)) =>
      if MIN_KEYWORD_INTEREST <=? interest
      then [mkTopic kw interest (Some (_competition kw)) (Some trend) (Some "google_trends")]
      else []) g_trends in
  let topics := (topics ++ get_pinterest_trends month r)%list in
  let topics := match topics with [] => evergreen_topics | _ => topics end in
  let filtered := filter (fun t => (MIN_KEYWORD_INTEREST <=? t_interest t) &&
                                   negb (is_high (t_competition t))) topics in
  firstn 10 (sort_desc filtered).

(** ** The Streamlit page ([run_streamlit_app]) *)

(** What one run of the page does with its inputs: the topics shown by the
    "Suggest Trending Topics" button, and the keyword that the "Generate
    Blog Post" button passes to [find_relevant_products],
    [search_pexels_images] and every [ContentGenerator] method. *)
Record page_result := mkPageResult {
  shown_topics : list string; generated_for : option string }.

Definition run_streamlit_app (keyword : string) (generate_btn trends_btn : bool)
  (pytrends_ready : bool) (resp : trends_response) (month : nat) (r : nat -> nat)
  : page_result :=
  let shown := if trends_btn
               then map t_keyword (get_trending_topics pytrends_ready resp month r)
               else [] in
  let generated := if generate_btn then Some keyword else None in
  mkPageResult shown generated.


(** ** ContentGenerator.create_structured_content *)

(** A triple-quoted f-string of the source that starts and ends with a
    newline, given by its lines. *)
Definition block (lines : list string) : string :=
  nl ++ String.concat "" (map (fun l => l ++ nl) lines).

(** [ContentGenerator._img_block] (an image record is never empty). *)
Definition _img_block (img : image) : string :=
  "<figure class=" ++ q ++ "post-image" ++ q ++ ">" ++
  "<img src=" ++ q ++ i_url img ++ q ++ " alt=" ++ q ++ i_alt img ++ q ++
  " loading=" ++ q ++ "lazy" ++ q ++ " />" ++
  "<figcaption>Photo by <a href=" ++ q ++ i_photographer_url img ++ q ++
  " target=" ++ q ++ "_blank" ++ q ++ " rel=" ++ q ++ "noopener" ++ q ++ ">" ++
  i_photographer img ++ "</a></figcaption>" ++
  "</figure>".

Definition intro_section (intro keyword hero_html : string) : string :=
  block [
    "<div class=" ++ q ++ "intro-section" ++ q ++ ">";
    "    <p>" ++ intro ++ " I'm Helen, and today we're diving deep into everything you need to know about " ++ keyword ++ ".</p>";
    "    <p>Whether you're a complete beginner or looking to level up your current routine, this comprehensive guide will walk you through step-by-step techniques, product recommendations, and insider tips that actually work.</p>";
    "    " ++ hero_html;
    "</div>" ].

Definition what_is_section (keyword product0_link : string) : string :=
  block [
    "<h2>What is " ++ (title keyword) ++ "?</h2>";
    "<p>Let's start with the basics, shall we? " ++ (title keyword) ++ " is more than just a beauty trend ‚Äì it's a comprehensive approach that focuses on enhancing your natural beauty while maintaining healthy, glowing skin.</p>";
    "<p>Here's what makes " ++ keyword ++ " so special and why it's taking the beauty world by storm:</p>";
    "<ul>";
    "    <li><strong>Promotes healthy, radiant skin:</strong> Works with your skin's natural processes rather than against them</li>";
    "    <li><strong>Uses gentle, effective ingredients:</strong> No harsh chemicals that can damage your precious skin barrier</li>";
    "    <li><strong>Suitable for most skin types:</strong> Adaptable techniques that work whether you have oily, dry, or combination skin</li>";
    "    <li><strong>Focuses on long-term results:</strong> Sustainable beauty practices that deliver lasting improvements</li>";
    "    <li><strong>Budget-friendly options available:</strong> You don't need to break the bank to see amazing results</li>";
    "</ul>";
    "<p>One product that's been absolutely revolutionary in my " ++ keyword ++ " journey is " ++ product0_link ++ ". This little miracle worker has completely transformed my routine, and I can't recommend it enough!</p>" ].

Definition step_section (keyword : string) (image1 : image) (product1_link : string) : string :=
  block [
    "<h2>Step-by-Step " ++ (title keyword) ++ " Guide</h2>";
    _img_block image1;
    "<p>Now let's get into the nitty-gritty! Here's my foolproof method that I've perfected over years of trial and error:</p>";
    "<h3>Step 1: Preparation is Everything</h3>";
    "<p>Before we dive in, make sure you're starting with a clean slate. Always begin with freshly washed hands and a thoroughly cleansed face. This step is crucial because it ensures maximum product absorption and prevents any bacteria from interfering with your routine.</p>";
    "<h3>Step 2: Apply Your Key Products</h3>";
    "<p>This is where the magic happens! " ++ product1_link ++ " has been my holy grail for this step. Apply it evenly using gentle patting motions ‚Äì never rub or pull at your delicate skin.</p>";
    "<h3>Step 3: Lock Everything In</h3>";
    "<p>Seal in all that goodness with a quality moisturizer. And if you're doing this routine in the morning, sunscreen is absolutely non-negotiable.</p>";
    "<p>Remember: consistency beats perfection every single time. It's better to do a simple routine religiously than a complicated one sporadically.</p>" ].

Definition mistakes_section (keyword product2_link : string) : string :=
  block [
    "<h2>Common " ++ (title keyword) ++ " Mistakes to Avoid</h2>";
    "<p>Let's talk about the mistakes I see people making all the time ‚Äì and trust me, I've made most of these myself when I was starting out!</p>";
    "<h3>‚ùå Mistake #1: Using Too Much Product</h3>";
    "<p>Less is more with " ++ keyword ++ ". Start with small amounts and build up gradually to avoid irritation.</p>";
    "<h3>‚ùå Mistake #2: Being Inconsistent</h3>";
    "<p>Results come from consistency, not perfection. A simple daily routine beats a complex once-a-week ritual.</p>";
    "<h3>‚ùå Mistake #3: Wrong Product Selection</h3>";
    "<p>Not all products are created equal. " ++ product2_link ++ " is one of my top picks because it's gentle, effective, and delivers results without overwhelming your skin.</p>" ].

Definition tips_section (keyword conclusion : string) : string :=
  block [
    "<h2>Top Tips for " ++ (title keyword) ++ "</h2>";
    "<ul>";
    "    <li>Patch test new products before applying them to your whole face.</li>";
    "    <li>Introduce one active ingredient at a time so you can tell how your skin reacts.</li>";
    "    <li>Use sunscreen every morning ‚Äî the most important anti-aging product you‚Äôll ever own.</li>";
    "    <li>Be patient: skin improvements take time‚Äîusually several weeks to months.</li>";
    "</ul>";
    "<h2>FAQ</h2>";
    "<h3>How often should I do this routine?</h3>";
    "<p>Start with a simple morning and night routine. Introduce actives like retinol slowly (1‚Äì2x per week) and ramp up as your skin tolerates it.</p>";
    "<div class=" ++ q ++ "conclusion" ++ q ++ ">";
    "    <p>" ++ conclusion ++ "</p>";
    "</div>" ].

Definition intro_templates (keyword : string) : list string := [
  "Hey gorgeous! ‚ú® If you've been searching for the ultimate guide to " ++ keyword ++ ", you've landed in exactly the right place.";
  "Beauty lovers, gather around! üíï Today we're diving deep into everything you need to know about " ++ keyword ++ ".";
  "Ready to transform your beauty routine? I'm so excited to share this comprehensive guide to " ++ keyword ++ " with you!";
  "If " ++ keyword ++ " has been on your wishlist but you don't know where to start, this guide is for you, babe!" ].

Definition conclusion_templates (keyword : string) : list string := [
  "There you have it, beauties! Your complete guide to " ++ keyword ++ ". Remember, consistency is key when it comes to any beauty routine.";
  "I hope this guide helps you on your " ++ keyword ++ " journey! What's your favorite tip from this post?";
  "That's a wrap on our " ++ keyword ++ " deep dive! I'd love to hear about your experience - drop a comment below!";
  "Thanks for joining me on this " ++ keyword ++ " adventure! Remember, the best beauty routine is the one you'll actually stick to." ].

(** [create_affiliate_link(products[k]) if len(products) > k else ""] *)
Definition product_link (affiliate_tag : string) (products : list product) (k : nat)
  : string :=
  match nth_error products k with
  | Some p => create_affiliate_link affiliate_tag p
  | None => ""
  end.

(** The [sections] list of [ContentGenerator.create_structured_content]:
    [ri] and [rc] are the draws of the two [random.choice] calls;
    [sections] is built by appends. *)
Definition content_sections (affiliate_tag : string) (ri rc : nat)
  (keyword : string) (products : list product) (images : list image) : list string :=
  let intro := pick ri (intro_templates keyword) "" in
  let conclusion := pick rc (conclusion_templates keyword) "" in
  let sections : list string := [] in
  let hero_html := match images with img :: _ => _img_block img | [] => "" end in
  let sections := (sections ++ [intro_section intro keyword hero_html])%list in
  let product0_link := product_link affiliate_tag products 0 in
  let sections := (sections ++ [what_is_section keyword product0_link])%list in
  let sections :=
    match images with
    | _ :: img1 :: _ =>
        let product1_link := product_link affiliate_tag products 1 in
        (sections ++ [step_section keyword img1 product1_link])%list
    | _ => sections
    end in
  let product2_link := product_link affiliate_tag products 2 in
  let sections := (sections ++ [mistakes_section keyword product2_link])%list in
  let sections := (sections ++ [tips_section keyword conclusion])%list in
  sections.

(** [ContentGenerator.create_structured_content]: ["\n".join(sections)]. *)
Definition create_structured_content (affiliate_tag : string) (ri rc : nat)
  (keyword : string) (products : list product) (images : list image) : string :=
  String.concat nl (content_sections affiliate_tag ri rc keyword products images).





Definition fixture_tag : string := "helenbeautysh-20".

(** Auxiliary definitions used by the statements. *)

(** The text of an affiliate anchor after the closing quote of its URL. *)
Definition anchor_tail (p : product) : string :=
  " target=" ++ q ++ "_blank" ++ q ++ " rel=" ++ q ++ "nofollow sponsored" ++ q ++
  ">" ++ p_name p ++ "</a>".

Definition desc (a b : topic) : Prop := t_interest b <= t_interest a.

(** A 47-character topic. *)
Definition long_topic : string :=
  "hydrating overnight sleeping mask for dry skins".

Definition no_image : image := mkImage "" "" "" "" "" "".


(** ** Config.validate *)

(** The string settings of [Config] (the numeric settings are the
    constants above). *)
Record config := mkConfig {
  PEXELS_API_KEY : string; GOOGLE_TRENDS_API_KEY : string;
  BLOGGER_CLIENT_ID : string; BLOGGER_CLIENT_SECRET : string;
  BLOGGER_BLOG_ID : string; AMAZON_AFFILIATE_TAG : string }.

(** Python's [not s] on a string. *)
Definition is_empty (s : string) : bool := String.eqb s "".

Definition validate (cfg : config) : list string :=
  let issues : list string := [] in
  let issues :=
    if is_empty (PEXELS_API_KEY cfg)
    then (issues ++ ["PEXELS_API_KEY not set - images will use placeholders"])%list
    else issues in
  let issues :=
    if is_empty (BLOGGER_CLIENT_ID cfg) || is_empty (BLOGGER_CLIENT_SECRET cfg)
    then (issues ++ ["Blogger credentials not set - publishing disabled"])%list
    else issues in
  let issues :=
    if is_empty (BLOGGER_BLOG_ID cfg)
    then (issues ++ ["BLOGGER_BLOG_ID not set - publishing disabled"])%list
    else issues in
  issues.

(** ** BloggerPublisher *)








(** ** The publishing step of [run_streamlit_app] *)




(** [file_name=f"{title.replace(' ', '_')}.html"] of the download button. *)
Fixpoint replace_space (s : string) : string :=
  match s with
  | EmptyString => EmptyString
  | String c s' => String (if Ascii.eqb c " " then "_" else c) (replace_space s')
  end.

Definition download_file_name (title : string) : string := replace_space title ++ ".html".

(** ** save_post_to_file and generate_example_post *)

(** The file system: file names with their contents, the latest write
    first. *)
Definition files := list (string * string).

Fixpoint file_read (name : string) (fs : files) : option string :=
  match fs with
  | [] => None
  | (n, c) :: fs' => if String.eqb name n then Some c else file_read name fs'
  end.

(** How the [with open(filename, "w")] block of [save_post_to_file] ends:
    both writes succeed; [open] raises, and the file is not touched; or
    [open] succeeds, truncating the file, and a write raises once the
    first [k] characters of the text have reached the file. *)
Inductive save_outcome :=
| SaveOk
| OpenError
| WriteError (k : nat).

(** The text the two [write] calls put in the file. *)
Definition saved_text (title html : string) : string :=
  ("<!-- " ++ title ++ " -->" ++ nl) ++ html.

(** [save_post_to_file]: every exception of the [with] block is logged and
    swallowed, so the function always returns normally. *)
Definition save_post_to_file (o : save_outcome) (title html filename : string) (fs : files)
  : files :=
  match o with
  | SaveOk => (filename, saved_text title html) :: fs
  | OpenError => fs
  | WriteError k => (filename, take k (saved_text title html)) :: fs
  end.

Record example_post := mkExamplePost {
  ex_title : string; ex_meta : string; ex_labels : list string; ex_html : string }.

(** [generate_example_post]: a fresh [ContentGenerator], so the image
    cache starts empty; [year] is [datetime.now().year] and the [r]
    arguments are the random draws of the calls. *)
Definition generate_example_post (cfg : config) (year : nat) (rp : nat -> nat)
  (r1 r2 rm ri rc : nat) (resp : http_outcome) (o : save_outcome) (fs : files)
  : example_post * files :=
  let keyword := "glass skin routine" in
  let products := find_relevant_products rp keyword 3 in
  let images := fst (search_pexels_images (PEXELS_API_KEY cfg) [] resp keyword 3) in
  let html := create_structured_content (AMAZON_AFFILIATE_TAG cfg) ri rc keyword products images in
  let title_ := generate_seo_title year r1 r2 keyword in
  let meta := generate_meta_description rm keyword title_ in
  let labels := generate_labels keyword in
  let fs := save_post_to_file o title_ html "example_post.html" fs in
  (mkExamplePost title_ meta labels html, fs).

(** Auxiliary definitions of the further properties. *)

(** The cache key [f"{query}_{count}"] of [search_pexels_images]. *)
Definition cache_key (query : string) (count : nat) : string :=
  query ++ "_" ++ show_nat count.

(** Reading back a decimal numeral, from the value [v] of the digits read
    so far. *)
Fixpoint read_digits (v : nat) (s : string) : nat :=
  match s with
  | EmptyString => v
  | String c s' => read_digits (10 * v + (nat_of_ascii c - 48)) s'
  end.

Definition is_digit (c : ascii) : bool :=
  let n := nat_of_ascii c in (48 <=? n) && (n <=? 57).

Fixpoint all_chars (f : ascii -> bool) (s : string) : bool :=
  match s with
  | EmptyString => true
  | String c s' => f c && all_chars f s'
  end.

(** A 7-bit character: on text made of these, a byte is a character and
    the [title] model above is exact. *)
Definition is_ascii (c : ascii) : bool := nat_of_ascii c <? 128.

(** An image list as [search_pexels_images] builds it for [query]: the
    alt text of every image starts with the query. *)
Definition alts_for (query : string) (v : list image) : Prop :=
  Forall (fun img => String.prefix (query ++ " - ") (i_alt img) = true) v.

(** The cache as [search_pexels_images] fills it: the entry for
    [(query, count)] has at most [count] images, built for [query]. *)
Definition cache_ok (cache : image_cache) : Prop :=
  forall query count v, cache_lookup (cache_key query count) cache = Some v ->
    length v <= count /\ alts_for query v.

(** The first line of a text, and what follows its first newline. *)
Fixpoint first_line (s : string) : string :=
  match s with
  | EmptyString => EmptyString
  | String c s' => if Ascii.eqb c (ascii_of_nat 10) then EmptyString else String c (first_line s')
  end.

Fixpoint after_first_line (s : string) : string :=
  match s with
  | EmptyString => EmptyString
  | String c s' => if Ascii.eqb c (ascii_of_nat 10) then s' else after_first_line s'
  end.


Definition not_newline (c : ascii) : bool := negb (Ascii.eqb c (ascii_of_nat 10)).
Definition not_space (c : ascii) : bool := negb (Ascii.eqb c " ").

(** A photo of a Pexels answer. *)
Definition sample_photo : photo :=
  mkPhoto "https://images.pexels.com/photos/1/large.jpeg" "https://images.pexels.com/photos/1/medium.jpeg"
    None "Ann" "https://www.pexels.com/@ann" "https://www.pexels.com/photo/1/".

(** * Proofs *)

(** ** String lemmas *)

Lemma append_length (s t : string) :
  String.length (s ++ t) = String.length s + String.length t.
Proof. induction s as [|c s IH]; simpl; auto. Qed.

Lemma title_aux_length (b : bool) (s : string) :
  String.length (title_aux b s) = String.length s.
Proof.
  revert b; induction s as [|c s IH]; intros b; simpl; [reflexivity|].
  destruct (is_upper c || is_lower c); simpl; rewrite IH; reflexivity.
Qed.

Lemma title_length (s : string) : String.length (title s) = String.length s.
Proof. apply title_aux_length. Qed.

Lemma take_length (n : nat) (s : string) :
  String.length (take n s) = Nat.min n (String.length s).
Proof.
  revert s; induction n as [|n IH]; intros [|c s]; simpl; auto.
Qed.

Lemma mod_cases3 (r : nat) : r mod 3 = 0 \/ r mod 3 = 1 \/ r mod 3 = 2.
Proof. pose proof (Nat.mod_upper_bound r 3). lia. Qed.

Lemma mod_cases7 (r : nat) :
  r mod 7 = 0 \/ r mod 7 = 1 \/ r mod 7 = 2 \/ r mod 7 = 3 \/
  r mod 7 = 4 \/ r mod 7 = 5 \/ r mod 7 = 6.
Proof. pose proof (Nat.mod_upper_bound r 7). lia. Qed.

(** ** Titles (C3) *)

Lemma short_title_length (r2 : nat) (keyword : string) :
  String.length (pick r2 (short_title_templates keyword) "")
  <= String.length keyword + 16.
Proof.
  unfold pick, short_title_templates; cbn [List.length].
  destruct (mod_cases3 r2) as [H|[H|H]]; rewrite H; cbn [nth];
    rewrite ?append_length, ?title_length; simpl; lia.
Qed.

(** C3: the title has at most [MAX_TITLE_LENGTH] = 60 characters when the
    topic is ASCII text of at most 44 characters: the first pick is kept
    when it fits, and otherwise a pick from the shorter templates, which
    add at most 16 characters to the title-cased topic, is returned
    without a further check. Longer topics break the cap (see the
    counterexample below). *)
Theorem generate_seo_title_short_topic_length (year r1 r2 : nat) (keyword : string)
  (Ha : all_chars is_ascii keyword = true) (Hk : String.length keyword <= 44) :
  String.length (generate_seo_title year r1 r2 keyword) <= MAX_TITLE_LENGTH.
Proof.
  unfold generate_seo_title.
  destruct (MAX_TITLE_LENGTH <? _) eqn:E.
  - pose proof (short_title_length r2 keyword). unfold MAX_TITLE_LENGTH. lia.
  - apply Nat.ltb_ge in E. exact E.
Qed.

Lemma generate_seo_title_short_topic_length_witness :
  all_chars is_ascii "glass skin routine" = true /\
  String.length "glass skin routine" <= 44 /\
  String.length (generate_seo_title 2026 0 0 "glass skin routine") <= MAX_TITLE_LENGTH.
Proof.
  split; [vm_compute; reflexivity|]. split; [vm_compute; lia|].
  apply generate_seo_title_short_topic_length; [vm_compute; reflexivity | vm_compute; lia].
Defined.

(** C3 (counterexample): with a 47-character ASCII topic the first
    template renders 72 characters, so a shorter template is picked, which
    still renders 63 characters: the title is longer than the cap
    [MAX_TITLE_LENGTH] = 60. *)
Lemma generate_seo_title_long_topic_counterexample :
  ~ (forall year r1 r2 keyword,
        String.length (generate_seo_title year r1 r2 keyword) <= 60).
Proof.
  intros H. specialize (H 2026 0 0 long_topic).
  vm_compute in H. lia.
Qed.

(** ** Meta descriptions (C2) *)

(** C2 (amended): the meta description is the chosen template, replaced by
    the fallback sentence when longer than [META_DESC_LENGTH] = 155, and cut
    to its first 155 characters: no ellipsis and no padding is added. Its
    length lies in [121, 155] for every topic. *)
Theorem generate_meta_description_length (r : nat) (keyword title_ : string) :
  121 <= String.length (generate_meta_description r keyword title_) <= META_DESC_LENGTH /\
  exists meta, In meta (app (meta_templates keyword)
      ["Complete " ++ keyword ++ " guide with expert tips, product recommendations, and step-by-step instructions for glowing, healthy skin."]) /\
    generate_meta_description r keyword title_ = take META_DESC_LENGTH meta.
Proof.
  unfold generate_meta_description, pick.
  set (k := String.length keyword).
  set (fb := "Complete " ++ keyword ++ " guide with expert tips, product recommendations, and step-by-step instructions for glowing, healthy skin.").
  assert (Hfb : String.length fb = 115 + k)
    by (unfold fb; simpl; rewrite append_length; simpl; lia).
  assert (Hin : forall m, In m (meta_templates keyword) ->
            121 + k <= String.length m <= 149 + k /\ In m (app (meta_templates keyword) [fb])).
  { intros m Hm. split; [|apply in_or_app; left; exact Hm].
    simpl in Hm; destruct Hm as [<-|[<-|[<-|[]]]];
      simpl; rewrite append_length; simpl; lia. }
  assert (Hm : In (nth (r mod length (meta_templates keyword)) (meta_templates keyword) "")
                  (meta_templates keyword))
    by (apply nth_In, Nat.mod_upper_bound; discriminate).
  destruct (Hin _ Hm) as [Hlen Hin'].
  set (m := nth _ _ _) in *.
  unfold META_DESC_LENGTH.
  destruct (155 <? String.length m) eqn:E.
  - apply Nat.ltb_lt in E. rewrite take_length, Hfb. split; [lia|].
    exists fb. split; [apply in_or_app; right; left; reflexivity | reflexivity].
  - apply Nat.ltb_ge in E. rewrite take_length. split; [lia|].
    exists m. split; [exact Hin' | reflexivity].
Qed.

(** C2 (counterexample): for the empty topic the third template renders
    121 characters, below 150, and is returned unchanged. *)
Lemma generate_meta_description_short_counterexample :
  ~ (forall r keyword title_,
        150 <= String.length (generate_meta_description r keyword title_) <= 160).
Proof.
  intros H. specialize (H 2 "" "").
  vm_compute in H. lia.
Qed.

(** ** Labels (C4) *)

Lemma existsb_eqb_In (x : string) (l : list string) :
  existsb (String.eqb x) l = true <-> In x l.
Proof.
  rewrite existsb_exists. split.
  - intros [y [Hy E]]. apply String.eqb_eq in E. subst. exact Hy.
  - intros H. exists x. split; [exact H | apply String.eqb_refl].
Qed.

Lemma existsb_eqb_iff (x : string) (l l' : list string) :
  (forall y, In y l <-> In y l') ->
  existsb (String.eqb x) l = existsb (String.eqb x) l'.
Proof.
  intros H. destruct (existsb (String.eqb x) l) eqn:E1;
    destruct (existsb (String.eqb x) l') eqn:E2; auto.
  - apply existsb_eqb_In, H, existsb_eqb_In in E1. congruence.
  - apply existsb_eqb_In, H, existsb_eqb_In in E2. congruence.
Qed.

Lemma fromkeys_snoc (l : list string) (x : string) :
  fromkeys (app l [x]) =
  if existsb (String.eqb x) (fromkeys l) then fromkeys l else app (fromkeys l) [x].
Proof. unfold fromkeys. rewrite fold_left_app. reflexivity. Qed.

Lemma fromkeys_In (l : list string) : forall y, In y (fromkeys l) <-> In y l.
Proof.
  induction l as [|x l IH] using rev_ind; [simpl; tauto|].
  intros y. rewrite fromkeys_snoc.
  destruct (existsb (String.eqb x) (fromkeys l)) eqn:E.
  - apply existsb_eqb_In, IH in E. rewrite IH, in_app_iff. simpl.
    split; [tauto|]. intros [H|[<-|[]]]; auto.
  - rewrite !in_app_iff, IH. tauto.
Qed.

Lemma fromkeys_NoDup (l : list string) : NoDup (fromkeys l).
Proof.
  induction l as [|x l IH] using rev_ind; [constructor|].
  rewrite fromkeys_snoc.
  destruct (existsb (String.eqb x) (fromkeys l)) eqn:E; [exact IH|].
  apply NoDup_app; [exact IH | constructor; [intros []|constructor] |].
  intros y Hy [<-|[]]. apply (proj2 (existsb_eqb_In _ _)) in Hy. congruence.
Qed.

Lemma combine_snoc {A B} (l : list A) (l' : list B) (a : A) (b : B) :
  length l = length l' ->
  combine (app l [a]) (app l' [b]) = app (combine l l') [(a, b)].
Proof.
  revert l'; induction l as [|x l IH]; intros [|y l'] Hl; simpl in *;
    try discriminate; auto.
  rewrite IH; auto.
Qed.

Lemma first_seen_snoc (l : list string) (x : string) :
  first_seen (app l [x]) =
  app (first_seen l) (if existsb (String.eqb x) l then [] else [x]).
Proof.
  unfold first_seen. rewrite length_app. simpl List.length.
  rewrite Nat.add_1_r, seq_S, combine_snoc by (rewrite length_seq; reflexivity).
  rewrite filter_app, map_app. f_equal.
  - f_equal. apply filter_ext_in. intros [y i] Hp. simpl.
    apply in_combine_r, in_seq in Hp.
    rewrite firstn_app. replace (i - length l) with 0 by lia. simpl.
    rewrite app_nil_r. reflexivity.
  - simpl. rewrite firstn_app, Nat.sub_diag, firstn_all. simpl. rewrite app_nil_r.
    destruct (existsb (String.eqb x) l); reflexivity.
Qed.

(** [dict.fromkeys] keeps first occurrences in first-seen order. *)
Lemma fromkeys_first_seen (l : list string) : fromkeys l = first_seen l.
Proof.
  induction l as [|x l IH] using rev_ind; [reflexivity|].
  rewrite fromkeys_snoc, first_seen_snoc, <- IH.
  rewrite (existsb_eqb_iff x (fromkeys l) l (fromkeys_In l)).
  destruct (existsb (String.eqb x) l); [rewrite app_nil_r|]; reflexivity.
Qed.

Lemma NoDup_firstn {A} (n : nat) (l : list A) : NoDup l -> NoDup (firstn n l).
Proof.
  intros H. rewrite <- (firstn_skipn n l) in H. exact (NoDup_app_remove_r _ _ H).
Qed.

(** C4: the labels are the concatenation base labels ++ topic words longer
    than two characters ++ category labels, deduplicated in first-seen
    order and cut to 8 entries; so they have no duplicate and at most 8
    entries. *)
Theorem generate_labels_spec (keyword : string) :
  generate_labels keyword =
    firstn 8 (first_seen (app base_labels (app (topic_words keyword) (category_labels keyword)))) /\
  NoDup (generate_labels keyword) /\
  length (generate_labels keyword) <= 8.
Proof.
  unfold generate_labels. split; [|split].
  - rewrite fromkeys_first_seen. reflexivity.
  - apply NoDup_firstn, fromkeys_NoDup.
  - apply firstn_le_length.
Qed.

Example generate_labels_example :
  generate_labels "Glass Skin Routine" =
  ["beauty"; "skincare"; "beauty tips"; "glow with helen"; "glass"; "skin";
   "routine"; "skincare routine"].
Proof. vm_compute. reflexivity. Qed.

(** ** Affiliate tagging (C1) *)

Lemma string_app_assoc (a b c : string) : (a ++ b) ++ c = a ++ (b ++ c).
Proof. induction a as [|x a IH]; simpl; [reflexivity | rewrite IH; reflexivity]. Qed.

Lemma string_app_nil_r (a : string) : a ++ "" = a.
Proof. induction a as [|x a IH]; simpl; [reflexivity | rewrite IH; reflexivity]. Qed.

Lemma prefix_app_r (p s t : string) :
  String.prefix p s = true -> String.prefix p (s ++ t) = true.
Proof.
  revert s; induction p as [|a p IH]; intros [|b s] H.
  - destruct t; reflexivity.
  - destruct (s ++ t); reflexivity.
  - discriminate.
  - simpl in H |- *. destruct (ascii_dec a b); [apply IH; exact H | discriminate].
Qed.

Lemma prefix_self_app (s t : string) : String.prefix s (s ++ t) = true.
Proof.
  induction s as [|a s IH]; simpl; [destruct t; reflexivity|].
  destruct (ascii_dec a a) as [_|n]; [exact IH | congruence].
Qed.

Lemma contains_app_l (n s t : string) :
  contains n s = true -> contains n (s ++ t) = true.
Proof.
  induction s as [|a s IH]; intros H; simpl in *.
  - destruct n; [destruct t; reflexivity | discriminate].
  - apply orb_true_iff in H as [H|H].
    + apply orb_true_iff; left. exact (prefix_app_r _ (String a s) _ H).
    + apply orb_true_iff; right. apply IH, H.
Qed.

Lemma contains_app_r (n s t : string) :
  contains n t = true -> contains n (s ++ t) = true.
Proof.
  induction s as [|a s IH]; intros H; simpl; [exact H|].
  apply orb_true_iff; right. apply IH, H.
Qed.

Lemma contains_of_prefix (n s : string) :
  String.prefix n s = true -> contains n s = true.
Proof.
  intros H. destruct s as [|b s].
  - change (String.prefix n "" || false = true). rewrite H. reflexivity.
  - change (String.prefix n (String b s) || contains n s = true). rewrite H. reflexivity.
Qed.

Lemma contains_self_app (n t : string) : contains n (n ++ t) = true.
Proof. apply contains_of_prefix, prefix_self_app. Qed.

Lemma add_tag_idem (affiliate_tag w : string) :
  add_tag affiliate_tag (add_tag affiliate_tag w) = add_tag affiliate_tag w.
Proof.
  destruct (is_marketplace_url w && negb (has_tag_param w)) eqn:E.
  2:{ assert (Hw : add_tag affiliate_tag w = w) by (unfold add_tag; rewrite E; reflexivity).
      rewrite !Hw. reflexivity. }
  set (w' := w ++ (if contains "?" w then "&" else "?") ++ "tag=" ++ affiliate_tag).
  assert (Hw : add_tag affiliate_tag w = w') by (unfold add_tag; rewrite E; reflexivity).
  rewrite Hw.
  apply andb_true_iff in E as [Hm _].
  assert (Hm' : is_marketplace_url w' = true).
  { unfold is_marketplace_url in *. apply andb_true_iff in Hm as [Hp Hc].
    apply andb_true_iff; split.
    - apply orb_true_iff in Hp as [Hp|Hp]; apply orb_true_iff;
        [left|right]; apply prefix_app_r, Hp.
    - apply contains_app_l, Hc. }
  assert (Ht : has_tag_param w' = true).
  { unfold has_tag_param, w'. apply orb_true_iff.
    destruct (contains "?" w); [right|left]; apply contains_app_r;
      [exact (contains_self_app "&tag=" affiliate_tag)
      |exact (contains_self_app "?tag=" affiliate_tag)]. }
  unfold add_tag. rewrite Hm', Ht. reflexivity.
Qed.

Lemma no_delim_app (a b : string) : no_delim (a ++ b) = no_delim a && no_delim b.
Proof. induction a as [|c a IH]; simpl; [reflexivity|]. rewrite IH, andb_assoc. reflexivity. Qed.

Lemma add_tag_no_delim (affiliate_tag w : string) :
  no_delim affiliate_tag = true -> no_delim w = true ->
  no_delim (add_tag affiliate_tag w) = true.
Proof.
  intros HT Hw. unfold add_tag.
  destruct (_ && _); [|exact Hw].
  rewrite !no_delim_app, Hw, HT.
  destruct (contains "?" w); reflexivity.
Qed.

Lemma tag_aux_word (affiliate_tag cur w s : string) :
  no_delim w = true ->
  tag_aux affiliate_tag cur (w ++ s) = tag_aux affiliate_tag (cur ++ w) s.
Proof.
  revert cur; induction w as [|c w IH]; intros cur Hw; simpl in *.
  - rewrite string_app_nil_r. reflexivity.
  - apply andb_true_iff in Hw as [Hc Hw]. apply negb_true_iff in Hc.
    rewrite Hc, IH by exact Hw. rewrite string_app_assoc. reflexivity.
Qed.

Lemma tag_html_word (affiliate_tag w : string) :
  no_delim w = true -> tag_html affiliate_tag w = add_tag affiliate_tag w.
Proof.
  intros Hw. unfold tag_html.
  rewrite <- (string_app_nil_r w) at 1. rewrite tag_aux_word by exact Hw.
  reflexivity.
Qed.

Lemma tag_html_word_delim (affiliate_tag w : string) (d : ascii) (s : string) :
  no_delim w = true -> is_delim d = true ->
  tag_html affiliate_tag (w ++ String d s) =
  add_tag affiliate_tag w ++ String d (tag_html affiliate_tag s).
Proof.
  intros Hw Hd. unfold tag_html. rewrite tag_aux_word by exact Hw.
  simpl. rewrite Hd. reflexivity.
Qed.

(** Every string is one word, or a word, a delimiter and the rest. *)
Lemma first_word (s : string) :
  no_delim s = true \/
  exists w d s', s = w ++ String d s' /\ no_delim w = true /\ is_delim d = true.
Proof.
  induction s as [|c s IH]; [left; reflexivity|].
  destruct (is_delim c) eqn:Hc.
  - right. exists "", c, s. auto.
  - destruct IH as [IH|(w & d & s' & -> & Hw & Hd)].
    + left. simpl. rewrite Hc, IH. reflexivity.
    + right. exists (String c w), d, s'. simpl. rewrite Hc, Hw. auto.
Qed.

Lemma tag_html_idem_len (affiliate_tag : string) (HT : no_delim affiliate_tag = true) :
  forall n s, String.length s <= n ->
  tag_html affiliate_tag (tag_html affiliate_tag s) = tag_html affiliate_tag s.
Proof.
  induction n as [|n IH]; intros s Hs.
  - destruct s; [reflexivity | simpl in Hs; lia].
  - destruct (first_word s) as [Hw|(w & d & s' & -> & Hw & Hd)].
    + rewrite (tag_html_word _ s Hw), tag_html_word by (apply add_tag_no_delim; auto).
      apply add_tag_idem.
    + rewrite tag_html_word_delim by auto.
      rewrite tag_html_word_delim by (auto using add_tag_no_delim).
      rewrite add_tag_idem, IH; [reflexivity|].
      rewrite append_length in Hs. simpl in Hs. lia.
Qed.

(** Splitting the tagger's input after a delimiter. *)
Lemma tag_aux_delim_app (affiliate_tag : string) (d : ascii) (s2 : string) :
  is_delim d = true ->
  forall s1 cur,
  tag_aux affiliate_tag cur (s1 ++ String d s2) =
  tag_aux affiliate_tag cur (s1 ++ String d "") ++ tag_html affiliate_tag s2.
Proof.
  intros Hd s1. induction s1 as [|c s1 IH]; intros cur; simpl.
  - rewrite Hd. rewrite string_app_assoc. reflexivity.
  - destruct (is_delim c).
    + rewrite IH, string_app_assoc. reflexivity.
    + apply IH.
Qed.

Lemma add_tag_tagged (affiliate_tag w : string) :
  has_tag_param w = true -> add_tag affiliate_tag w = w.
Proof. intros H. unfold add_tag. rewrite H, andb_false_r. reflexivity. Qed.

Lemma products_tagging_fixed (affiliate_tag : string) (p : product) :
  In p all_products ->
  no_delim (p_id p) = true /\ tag_html affiliate_tag (anchor_tail p) = anchor_tail p.
Proof.
  intros H. simpl in H.
  repeat (destruct H as [<-|H]; [split; reflexivity|]). destruct H.
Qed.

Lemma affiliate_url_tagged (affiliate_tag : string) (p : product) :
  has_tag_param (affiliate_url affiliate_tag p) = true.
Proof.
  unfold has_tag_param, affiliate_url. apply orb_true_iff; left.
  rewrite string_app_assoc. apply contains_app_r, contains_app_r.
  exact (contains_app_r "?tag=" "/" _ (contains_self_app "?tag=" affiliate_tag)).
Qed.

(** C1: the affiliate tagger (modelled from the spec) is idempotent on
    every HTML string, leaves a marketplace URL that already carries the
    tag parameter unchanged, and leaves every anchor produced by
    [create_affiliate_link] for the products of the table unchanged, for a
    tracking tag without whitespace, quotes or angle brackets. *)
Theorem affiliate_tagging_idempotent (affiliate_tag : string)
  (HT : no_delim affiliate_tag = true) :
  (forall html, tag_html affiliate_tag (tag_html affiliate_tag html) =
                tag_html affiliate_tag html) /\
  (forall w, has_tag_param w = true -> add_tag affiliate_tag w = w) /\
  (forall p, In p all_products ->
     tag_html affiliate_tag (create_affiliate_link affiliate_tag p) =
     create_affiliate_link affiliate_tag p).
Proof.
  split; [|split].
  - intros html. exact (tag_html_idem_len affiliate_tag HT _ html (le_n _)).
  - apply add_tag_tagged.
  - intros p Hp. destruct (products_tagging_fixed affiliate_tag p Hp) as [Hid Htail].
    assert (Ha : create_affiliate_link affiliate_tag p =
      "<a href=" ++ String (ascii_of_nat 34)
        (affiliate_url affiliate_tag p ++ String (ascii_of_nat 34) (anchor_tail p)))
      by reflexivity.
    rewrite Ha.
    unfold tag_html. rewrite tag_aux_delim_app by reflexivity. fold (tag_html affiliate_tag).
    rewrite tag_html_word_delim by
      (try reflexivity; unfold affiliate_url; rewrite !no_delim_app, Hid, HT; reflexivity).
    rewrite add_tag_tagged by apply affiliate_url_tagged.
    rewrite Htail. reflexivity.
Qed.

Lemma affiliate_tagging_idempotent_witness :
  no_delim "helenbeautysh-20" = true /\
  tag_html "helenbeautysh-20"
    (create_affiliate_link "helenbeautysh-20" (hd (mkProduct "" "" "" "" "") skincare_products)) =
  create_affiliate_link "helenbeautysh-20" (hd (mkProduct "" "" "" "" "") skincare_products).
Proof.
  split; [reflexivity|].
  apply (affiliate_tagging_idempotent "helenbeautysh-20" eq_refl).
  simpl. left. reflexivity.
Defined.

(** ** Product search (C10) *)

Lemma remove_nth_perm {A} (d : A) (j : nat) (l : list A) :
  j < length l -> Permutation l (nth j l d :: remove_nth j l).
Proof.
  revert l; induction j as [|j IH]; intros [|x l] H; simpl in *; try lia.
  - reflexivity.
  - rewrite perm_swap. apply perm_skip, IH. lia.
Qed.

Lemma remove_nth_length {A} (j : nat) (l : list A) :
  j < length l -> length (remove_nth j l) = pred (length l).
Proof.
  revert l; induction j as [|j IH]; intros [|x l] H; simpl in *; try lia.
  rewrite IH by lia. destruct l; simpl in *; lia.
Qed.

Lemma sample_perm {A} (d : A) (r : nat -> nat) :
  forall k i pool, exists rest, Permutation pool (sample d r i k pool ++ rest).
Proof.
  induction k as [|k IH]; intros i pool; simpl.
  - exists pool. reflexivity.
  - destruct pool as [|x l] eqn:Ep; [exists []; reflexivity|].
    rewrite <- Ep.
    assert (Hj : r i mod length pool < length pool)
      by (apply Nat.mod_upper_bound; subst; discriminate).
    destruct (IH (S i) (remove_nth (r i mod length pool) pool)) as [rest Hr].
    exists rest. simpl.
    etransitivity; [apply (remove_nth_perm d _ _ Hj)|]. apply perm_skip, Hr.
Qed.

Lemma sample_length {A} (d : A) (r : nat -> nat) :
  forall k i pool, length (sample d r i k pool) = Nat.min k (length pool).
Proof.
  induction k as [|k IH]; intros i pool; simpl; [reflexivity|].
  destruct pool as [|x l] eqn:Ep; [reflexivity|]. rewrite <- Ep.
  assert (Hj : r i mod length pool < length pool)
    by (apply Nat.mod_upper_bound; subst; discriminate).
  simpl. rewrite IH, remove_nth_length by exact Hj. subst. simpl. lia.
Qed.

Lemma dedup_by_id_loop (l : list product) :
  forall u s, s = rev (map p_id u) -> NoDup (map p_id u) ->
  let res := fold_left (fun (st : list product * list string) p =>
         let '(unique, seen) := st in
         if existsb (String.eqb (p_id p)) seen then (unique, seen)
         else ((unique ++ [p])%list, p_id p :: seen)) l (u, s) in
  NoDup (map p_id (fst res)) /\
  (forall p, In p (fst res) -> In p u \/ In p l) /\
  (u <> [] \/ l <> [] -> fst res <> []).
Proof.
  induction l as [|x l IH]; intros u s Hs Hu; simpl.
  - split; [exact Hu|]. split; [auto|]. intros [H|H]; [exact H | congruence].
  - destruct (existsb (String.eqb (p_id x)) s) eqn:E.
    + destruct (IH u s Hs Hu) as (H1 & H2 & H3). split; [exact H1|]. split.
      * intros p Hp. destruct (H2 p Hp); auto.
      * intros _. apply H3. left. intros ->. subst s. discriminate.
    + assert (Hn : ~ In (p_id x) (map p_id u)).
      { intros H. apply in_rev in H. rewrite <- Hs in H.
        apply existsb_eqb_In in H. congruence. }
      destruct (IH (u ++ [x])%list (p_id x :: s)) as (H1 & H2 & H3).
      * rewrite map_app, rev_app_distr, Hs. reflexivity.
      * rewrite map_app. apply NoDup_app; [exact Hu | constructor; [intros []|constructor]|].
        intros y Hy [<-|[]]. contradiction.
      * split; [exact H1|]. split.
        -- intros p Hp. destruct (H2 p Hp) as [H|H]; [|auto].
           apply in_app_iff in H as [H|[<-|[]]]; auto.
        -- intros _. apply H3. left. destruct u; discriminate.
Qed.

Lemma dedup_by_id_spec (l : list product) :
  NoDup (map p_id (dedup_by_id l)) /\
  (forall p, In p (dedup_by_id l) -> In p l) /\
  (l <> [] -> dedup_by_id l <> []).
Proof.
  destruct (dedup_by_id_loop l [] [] eq_refl (NoDup_nil _)) as (H1 & H2 & H3).
  unfold dedup_by_id. split; [exact H1|]. split.
  - intros p Hp. destruct (H2 p Hp) as [[]|H]; exact H.
  - intros Hl. apply H3. right. exact Hl.
Qed.

Lemma NoDup_map_perm_app {A B} (f : A -> B) (l a b : list A) :
  Permutation l (a ++ b) -> NoDup (map f l) -> NoDup (map f a).
Proof.
  intros Hp Hl. apply (Permutation_map f) in Hp.
  apply (Permutation_NoDup Hp) in Hl. rewrite map_app in Hl.
  exact (NoDup_app_remove_r _ _ Hl).
Qed.

(** C10: for every keyword and every count of at least 1, the products
    found are non-empty, at most [count], with pairwise distinct
    marketplace ids; they come from the matching products, or from the
    skincare table when nothing matches. *)
Theorem find_relevant_products_spec (r : nat -> nat) (keyword : string) (count : nat)
  (Hc : 1 <= count) :
  let res := find_relevant_products r keyword count in
  res <> [] /\ length res <= count /\ NoDup (map p_id res) /\
  (relevant_products keyword = [] -> forall p, In p res -> In p skincare_products) /\
  (relevant_products keyword <> [] ->
     forall p, In p res -> In p (relevant_products keyword)).
Proof.
  intros res. unfold res, find_relevant_products.
  set (rel := match relevant_products keyword with [] => skincare_products | _ => _ end).
  assert (Hrel : rel <> []) by (unfold rel; destruct (relevant_products keyword); discriminate).
  destruct (dedup_by_id_spec rel) as (Hnd & Hin & Hne).
  set (u := dedup_by_id rel) in *.
  specialize (Hne Hrel).
  destruct (sample_perm no_product r (Nat.min count (length u)) 0 u) as [rest Hp].
  assert (Hsub : forall p, In p (sample no_product r 0 (Nat.min count (length u)) u) -> In p rel).
  { intros p Hs. apply Hin. apply (Permutation_in _ (Permutation_sym Hp)).
    apply in_or_app. left. exact Hs. }
  pose proof (sample_length no_product r (Nat.min count (length u)) 0 u) as Hlen.
  assert (Hu : 1 <= length u) by (destruct u; [congruence | simpl; lia]).
  split; [|split; [|split; [|split]]].
  - intros E. rewrite E in Hlen. simpl in Hlen. lia.
  - rewrite Hlen. lia.
  - exact (NoDup_map_perm_app p_id _ _ _ Hp Hnd).
  - intros E p Hs. specialize (Hsub p Hs). unfold rel in Hsub. rewrite E in Hsub. exact Hsub.
  - intros E p Hs. specialize (Hsub p Hs). unfold rel in Hsub.
    destruct (relevant_products keyword); [congruence | exact Hsub].
Qed.

Lemma find_relevant_products_spec_witness :
  1 <= 3 /\ find_relevant_products (fun i => i) "glass skin routine" 3 <> [].
Proof.
  split; [lia|].
  exact (proj1 (find_relevant_products_spec (fun i => i) "glass skin routine" 3 ltac:(lia))).
Defined.

(** ** Image fallback (C9) *)

Lemma placeholders_length (query : string) (count : nat) :
  length (_placeholders query count) = Nat.min count 3.
Proof. unfold _placeholders. rewrite length_firstn. reflexivity. Qed.

(** C9: on the fallback path (no API key; or a cache miss followed by a
    non-200 response or an exception) the images are the placeholders,
    exactly [min count 3] of them, so a request for 4 images yields 3. *)
Theorem search_pexels_images_fallback (pexels_api_key : string) (cache : image_cache)
  (resp : http_outcome) (query : string) (count : nat)
  (Hpath : pexels_api_key = "" \/
           (cache_lookup (query ++ "_" ++ show_nat count) cache = None /\
            (resp = HttpException \/
             exists status photos, resp = HttpResponse status photos /\ status <> 200))) :
  fst (search_pexels_images pexels_api_key cache resp query count) = _placeholders query count /\
  length (fst (search_pexels_images pexels_api_key cache resp query count)) = Nat.min count 3.
Proof.
  cut (fst (search_pexels_images pexels_api_key cache resp query count) =
       _placeholders query count).
  { intros H. split; [exact H|]. rewrite H. apply placeholders_length. }
  unfold search_pexels_images.
  destruct Hpath as [->|[Hc Hr]]; [reflexivity|].
  destruct (String.eqb pexels_api_key "") eqn:Ek; [reflexivity|].
  rewrite Hc.
  destruct Hr as [->|(st & ph & -> & Hst)]; [reflexivity|].
  apply Nat.eqb_neq in Hst. rewrite Hst. reflexivity.
Qed.

Lemma search_pexels_images_fallback_witness :
  fst (search_pexels_images "" [] HttpException "glass skin routine" 4) =
    _placeholders "glass skin routine" 4 /\
  length (fst (search_pexels_images "" [] HttpException "glass skin routine" 4)) = 3.
Proof.
  apply (search_pexels_images_fallback "" [] HttpException "glass skin routine" 4).
  left. reflexivity.
Defined.

(** ** Trending topics (C6, C7) *)

Lemma insert_desc_perm (x : topic) (l : list topic) : Permutation (insert_desc x l) (x :: l).
Proof.
  induction l as [|y l IH]; simpl; [reflexivity|].
  destruct (t_interest y <? t_interest x); [reflexivity|].
  rewrite IH. apply perm_swap.
Qed.

Lemma sort_desc_perm_aux (l : list topic) :
  forall acc, Permutation (fold_left (fun acc x => insert_desc x acc) l acc) (l ++ acc).
Proof.
  induction l as [|x l IH]; intros acc; simpl; [reflexivity|].
  rewrite IH, insert_desc_perm. symmetry. apply Permutation_middle.
Qed.

Lemma sort_desc_perm (l : list topic) : Permutation (sort_desc l) l.
Proof. unfold sort_desc. rewrite sort_desc_perm_aux, app_nil_r. reflexivity. Qed.

Lemma insert_desc_sorted (x : topic) (l : list topic) :
  Sorted desc l -> Sorted desc (insert_desc x l).
Proof.
  induction 1 as [|y l Hs IH Hhd]; simpl.
  - repeat constructor.
  - destruct (t_interest y <? t_interest x) eqn:E.
    + apply Nat.ltb_lt in E. constructor; [constructor; assumption|].
      constructor. unfold desc. lia.
    + apply Nat.ltb_ge in E. constructor; [exact IH|].
      destruct l as [|z l]; simpl.
      * constructor. unfold desc. lia.
      * inversion Hhd; subst. destruct (t_interest z <? t_interest x);
          constructor; unfold desc in *; lia.
Qed.

Lemma sort_desc_sorted (l : list topic) : Sorted desc (sort_desc l).
Proof.
  unfold sort_desc.
  assert (H : forall acc, Sorted desc acc ->
            Sorted desc (fold_left (fun acc x => insert_desc x acc) l acc)).
  { induction l as [|x l IH]; intros acc Hacc; simpl; [exact Hacc|].
    apply IH, insert_desc_sorted, Hacc. }
  apply H. constructor.
Qed.

Lemma firstn_sorted {A} (R : A -> A -> Prop) (n : nat) (l : list A) :
  Sorted R l -> Sorted R (firstn n l).
Proof.
  revert l; induction n as [|n IH]; intros l Hl; [constructor|].
  destruct l as [|x l]; [constructor|]. simpl.
  apply Sorted_inv in Hl as [Hl Hhd]. constructor; [apply IH, Hl|].
  destruct n, l; simpl; try constructor. inversion Hhd; assumption.
Qed.

Lemma In_firstn {A} (n : nat) (l : list A) (x : A) : In x (firstn n l) -> In x l.
Proof.
  intros H. rewrite <- (firstn_skipn n l). apply in_or_app. left. exact H.
Qed.

(** C7 (amended): every trending topic has interest at least
    [MIN_KEYWORD_INTEREST] = 70 and no competition tag equal to "high"
    (the seasonal entries carry no tag); the list is sorted by descending
    interest and has at most 10 entries. A run of the page that generates
    a post generates it for the text of the keyword box, whatever it
    holds (the empty text too) and whether or not the trending list is
    shown in the same run. *)
Theorem get_trending_topics_filtered_sorted (pytrends_ready : bool)
  (resp : trends_response) (month : nat) (r : nat -> nat) :
  let res := get_trending_topics pytrends_ready resp month r in
  (forall t, In t res -> MIN_KEYWORD_INTEREST <= t_interest t /\
                         t_competition t <> Some "high") /\
  Sorted desc res /\ length res <= 10 /\
  (forall keyword trends_btn,
     generated_for (run_streamlit_app keyword true trends_btn pytrends_ready resp month r)
     = Some keyword).
Proof.
  intros res. split; [|split; [|split]];
    [..|intros keyword trends_btn; reflexivity].
  all: unfold res, get_trending_topics.
  all: set (topics := match _ with [] => evergreen_topics | _ => _ end).
  - intros t Ht. apply In_firstn in Ht.
    apply (Permutation_in _ (sort_desc_perm _)), filter_In in Ht as [_ Hp].
    apply andb_true_iff in Hp as [Hi Hc]. split.
    + apply Nat.leb_le, Hi.
    + intros E. rewrite E in Hc. discriminate.
  - apply firstn_sorted, sort_desc_sorted.
  - rewrite length_firstn. lia.
Qed.

(** C7 (counterexample): the first trending topic is not used as the
    topic of the post when no topic is supplied. With the keyword box
    cleared and "Generate Blog Post" pressed, the page generates the post
    for the empty keyword, while the first trending topic (in January,
    without pytrends, all draws 0) is "new year glow up". *)
Lemma trending_topic_not_pipeline_counterexample :
  ~ (forall pytrends_ready resp month r,
       generated_for (run_streamlit_app "" true false pytrends_ready resp month r) =
       hd_error (map t_keyword (get_trending_topics pytrends_ready resp month r))).
Proof.
  intros H. specialize (H false TrendsException 1 (fun _ => 0)).
  vm_compute in H. discriminate.
Qed.

Lemma filter_all {A} (f : A -> bool) (l : list A) :
  (forall x, In x l -> f x = true) -> filter f l = l.
Proof.
  induction l as [|x l IH]; intros H; simpl; [reflexivity|].
  rewrite H by (left; reflexivity). rewrite IH by (intros y Hy; apply H; right; exact Hy).
  reflexivity.
Qed.

Lemma map_snd_combine_seq {B} (f : nat * B -> string) (l : list B) :
  (forall i x, f (i, x) = f (0, x)) ->
  forall k, map f (combine (seq k (length l)) l) = map (fun x => f (0, x)) l.
Proof.
  intros Hf. induction l as [|x l IH]; intros k; simpl; [reflexivity|].
  rewrite Hf, IH. reflexivity.
Qed.

Lemma pinterest_keywords (month : nat) (r : nat -> nat) :
  map t_keyword (get_pinterest_trends month r) = seasonal month.
Proof.
  unfold get_pinterest_trends. rewrite map_map.
  rewrite (map_snd_combine_seq (fun x => t_keyword (let '(i, t) := x in _)))
    by reflexivity.
  apply map_id.
Qed.

Lemma pinterest_passes (month : nat) (r : nat -> nat) (t : topic) :
  In t (get_pinterest_trends month r) ->
  MIN_KEYWORD_INTEREST <= t_interest t /\ t_competition t = None.
Proof.
  unfold get_pinterest_trends. intros Ht. apply in_map_iff in Ht as [[i k] [<- _]].
  simpl. unfold MIN_KEYWORD_INTEREST. split; [lia | reflexivity].
Qed.

Lemma seasonal_not_evergreen (month : nat) :
  forallb (fun k => negb (existsb (String.eqb k) (map t_keyword evergreen_topics)))
          (seasonal month) = true.
Proof. do 13 (destruct month as [|month]; [reflexivity|]). reflexivity. Qed.

Lemma seasonal_length (month : nat) :
  1 <= length (seasonal month) <= 3.
Proof. do 13 (destruct month as [|month]; [simpl; lia|]). simpl; lia. Qed.

(** C6 (amended): when no external trend source is reachable (no pytrends
    client, or the lookup raises, which [get_google_trends] catches), the
    trending list is non-empty and is the simulated seasonal list of the
    month, reordered by interest; none of its entries is an evergreen
    topic, since the seasonal entries are always present and the evergreen
    list is only used when no candidate at all exists. The result type has
    no error case: nothing propagates to the caller. *)
Theorem get_trending_topics_unreachable (pytrends_ready : bool) (resp : trends_response)
  (month : nat) (r : nat -> nat)
  (Hdown : pytrends_ready = false \/ resp = TrendsException) :
  let res := get_trending_topics pytrends_ready resp month r in
  res <> [] /\
  Permutation (map t_keyword res) (seasonal month) /\
  (forall t, In t res -> ~ In (t_keyword t) (map t_keyword evergreen_topics)).
Proof.
  intros res.
  assert (Hg : get_google_trends pytrends_ready resp (firstn 5 beauty_keywords) = []).
  { destruct Hdown as [->| ->]; [reflexivity|]. destruct pytrends_ready; reflexivity. }
  assert (Hres : Permutation res (get_pinterest_trends month r)).
  { unfold res, get_trending_topics. rewrite Hg. simpl flat_map. rewrite app_nil_l.
    pose proof (seasonal_length month) as Hl.
    assert (Hlen : length (get_pinterest_trends month r) = length (seasonal month)).
    { rewrite <- (pinterest_keywords month r), length_map. reflexivity. }
    destruct (get_pinterest_trends month r) as [|t0 ts] eqn:Ep;
      [simpl in Hlen; lia|].
    rewrite <- Ep in Hlen |- *. rewrite filter_all.
    2:{ intros t Ht. destruct (pinterest_passes month r t Ht) as [H1 H2].
        rewrite H2. apply Nat.leb_le in H1. rewrite H1. reflexivity. }
    rewrite firstn_all2.
    - apply sort_desc_perm.
    - rewrite (Permutation_length (sort_desc_perm _)). lia. }
  assert (Hk : Permutation (map t_keyword res) (seasonal month)).
  { rewrite <- (pinterest_keywords month r). apply Permutation_map, Hres. }
  split; [|split; [exact Hk|]].
  - intros E. apply Permutation_length in Hk. rewrite E in Hk. simpl in Hk.
    pose proof (seasonal_length month). lia.
  - intros t Ht Hev.
    assert (Hs : In (t_keyword t) (seasonal month)).
    { apply (Permutation_in _ Hk), in_map, Ht. }
    pose proof (seasonal_not_evergreen month) as Hn.
    rewrite forallb_forall in Hn. specialize (Hn _ Hs).
    apply existsb_eqb_In in Hev. rewrite Hev in Hn. discriminate.
Qed.

Lemma get_trending_topics_unreachable_witness :
  (false = false \/ TrendsException = TrendsException) /\
  get_trending_topics false TrendsException 1 (fun _ => 0) <> [].
Proof.
  split; [left; reflexivity|].
  apply (get_trending_topics_unreachable false TrendsException 1 (fun _ => 0)).
  left. reflexivity.
Defined.

(** C6 (counterexample): without pytrends, in January, the first trending
    topic is "new year glow up", which is not on the evergreen list. *)
Lemma get_trending_topics_evergreen_counterexample :
  ~ (forall pytrends_ready resp month r,
       pytrends_ready = false \/ resp = TrendsException -> 1 <= month <= 12 ->
       exists t rest, get_trending_topics pytrends_ready resp month r = t :: rest /\
                      In (t_keyword t) (map t_keyword evergreen_topics)).
Proof.
  intros H.
  destruct (H false TrendsException 1 (fun _ => 0) (or_introl eq_refl) ltac:(lia))
    as (t & rest & E & Hin).
  vm_compute in E. injection E as <- <-. simpl in Hin. intuition discriminate.
Qed.

(** ** The assembled post (C5, C8) *)


















Lemma product_link_some (affiliate_tag : string) (products : list product) (k : nat) :
  k < length products ->
  product_link affiliate_tag products k =
  create_affiliate_link affiliate_tag (nth k products no_product).
Proof.
  intros H. unfold product_link. rewrite (nth_error_nth' products no_product H). reflexivity.
Qed.

Lemma product_link_none (affiliate_tag : string) (products : list product) (k : nat) :
  length products <= k -> product_link affiliate_tag products k = "".
Proof. intros H. unfold product_link. rewrite (proj2 (nth_error_None products k) H). reflexivity. Qed.

(** C8 (amended): the post is, joined by newlines and in this order, the
    intro block (with the hero image of the first image when there is one),
    the "What is" block, the step-by-step block exactly when there are at
    least two images, the "mistakes" block, and the tips/FAQ block that
    ends with the closing paragraph. The [k]-th affiliate link of these
    blocks (k = 0, 1, 2) is the link of [products[k]] when that product
    exists, and is empty otherwise. *)
Theorem create_structured_content_layout (affiliate_tag : string) (ri rc : nat)
  (keyword : string) (products : list product) (images : list image) :
  (exists intro conclusion,
     In intro (intro_templates keyword) /\ In conclusion (conclusion_templates keyword) /\
     content_sections affiliate_tag ri rc keyword products images =
       ([intro_section intro keyword
           (match images with img :: _ => _img_block img | [] => "" end);
         what_is_section keyword (product_link affiliate_tag products 0)] ++
        (if 2 <=? length images
         then [step_section keyword (nth 1 images no_image) (product_link affiliate_tag products 1)]
         else []) ++
        [mistakes_section keyword (product_link affiliate_tag products 2);
         tips_section keyword conclusion])%list) /\
  length (content_sections affiliate_tag ri rc keyword products images) =
    (if 2 <=? length images then 5 else 4) /\
  (forall k, k < 3 -> k < length products ->
     product_link affiliate_tag products k =
     create_affiliate_link affiliate_tag (nth k products no_product)) /\
  (forall k, length products <= k -> product_link affiliate_tag products k = "").
Proof.
  split; [|split; [|split]].
  - exists (pick ri (intro_templates keyword) ""), (pick rc (conclusion_templates keyword) "").
    split; [apply nth_In, Nat.mod_upper_bound; discriminate|].
    split; [apply nth_In, Nat.mod_upper_bound; discriminate|].
    unfold content_sections.
    destruct images as [|i0 [|i1 rest]]; reflexivity.
  - unfold content_sections. destruct images as [|i0 [|i1 rest]]; reflexivity.
  - intros k _ Hk. apply product_link_some, Hk.
  - apply product_link_none.
Qed.

(** C8 (counterexample): with no products and no images the post has no
    image at all and no affiliate link, so the intro has no hero image and
    the "What is" block carries no link. *)
Lemma create_structured_content_no_input_counterexample :
  ~ (forall affiliate_tag ri rc keyword products images,
       let html := create_structured_content affiliate_tag ri rc keyword products images in
       contains "<img" html = true /\ contains "https://www.amazon.com/dp/" html = true).
Proof.
  intros H. destruct (H fixture_tag 0 0 "glow" [] []) as [Himg _].
  vm_compute in Himg. discriminate.
Qed.

(** ** Further properties: the image cache *)

Lemma digits_aux_app (f n : nat) (acc : string) :
  digits_aux f n acc = digits_aux f n "" ++ acc.
Proof.
  revert n acc; induction f as [|f IH]; intros n acc; simpl; [reflexivity|].
  destruct (n <? 10); [reflexivity|].
  rewrite IH, (IH (n / 10) (String _ "")), string_app_assoc. reflexivity.
Qed.

Lemma read_digits_app (v : nat) (s t : string) :
  read_digits v (s ++ t) = read_digits (read_digits v s) t.
Proof. revert v; induction s as [|c s IH]; intros v; simpl; [reflexivity | apply IH]. Qed.

Lemma digit_char (n : nat) :
  nat_of_ascii (ascii_of_nat (48 + n mod 10)) = 48 + n mod 10.
Proof.
  apply nat_ascii_embedding. pose proof (Nat.mod_upper_bound n 10). lia.
Qed.

Lemma read_digits_aux (f : nat) : forall n, n < 10 ^ f -> read_digits 0 (digits_aux f n "") = n.
Proof.
  induction f as [|f IH]; intros n Hn.
  - rewrite Nat.pow_0_r in Hn. assert (n = 0) by lia. subst. reflexivity.
  - rewrite Nat.pow_succ_r' in Hn. cbn [digits_aux].
    destruct (n <? 10) eqn:E.
    + apply Nat.ltb_lt in E. cbn [read_digits]. rewrite digit_char, Nat.mod_small by exact E. lia.
    + apply Nat.ltb_ge in E.
      rewrite digits_aux_app, read_digits_app, IH.
      * cbn [read_digits]. rewrite digit_char. pose proof (Nat.div_mod_eq n 10). lia.
      * apply Nat.Div0.div_lt_upper_bound. lia.
Qed.

Lemma read_show_nat (n : nat) : read_digits 0 (show_nat n) = n.
Proof.
  apply read_digits_aux. pose proof (Nat.pow_gt_lin_r 10 (S n) ltac:(lia)). lia.
Qed.

Lemma all_chars_app (f : ascii -> bool) (a b : string) :
  all_chars f (a ++ b) = all_chars f a && all_chars f b.
Proof.
  induction a as [|c a IH]; simpl; [reflexivity|]. rewrite IH, andb_assoc. reflexivity.
Qed.

Lemma digits_aux_digits (f : nat) : forall n acc,
  all_chars is_digit acc = true -> all_chars is_digit (digits_aux f n acc) = true.
Proof.
  induction f as [|f IH]; intros n acc H; simpl; [exact H|].
  assert (Hd : all_chars is_digit (String (ascii_of_nat (48 + n mod 10)) acc) = true).
  { cbn [all_chars]. rewrite H, andb_true_r. unfold is_digit. rewrite digit_char.
    pose proof (Nat.mod_upper_bound n 10).
    apply andb_true_iff; split; apply Nat.leb_le; lia. }
  destruct (n <? 10); [exact Hd | apply IH, Hd].
Qed.

Lemma show_nat_digits (n : nat) : all_chars is_digit (show_nat n) = true.
Proof. apply digits_aux_digits. reflexivity. Qed.

Lemma all_chars_impl (f g : ascii -> bool) (s : string) :
  (forall c, f c = true -> g c = true) -> all_chars f s = true -> all_chars g s = true.
Proof.
  intros Hfg. induction s as [|c s IH]; simpl; [reflexivity|].
  intros H. apply andb_true_iff in H as [H1 H2]. rewrite (Hfg c H1), (IH H2). reflexivity.
Qed.

Lemma key_split (q1 q2 d1 d2 : string) :
  all_chars is_digit d1 = true -> all_chars is_digit d2 = true ->
  q1 ++ "_" ++ d1 = q2 ++ "_" ++ d2 -> q1 = q2 /\ d1 = d2.
Proof.
  revert q2; induction q1 as [|a q1 IH]; intros [|b q2] H1 H2 E; simpl in E.
  - injection E as E. split; [reflexivity | exact E].
  - injection E as <- E. subst d1.
    rewrite all_chars_app in H1. simpl in H1. rewrite andb_false_r in H1. discriminate.
  - injection E as -> E. subst d2.
    rewrite all_chars_app in H2. simpl in H2. rewrite andb_false_r in H2. discriminate.
  - injection E as <- E. destruct (IH q2 H1 H2 E) as [-> ->]. split; reflexivity.
Qed.

Lemma cache_key_inj (q1 q2 : string) (c1 c2 : nat) :
  cache_key q1 c1 = cache_key q2 c2 -> q1 = q2 /\ c1 = c2.
Proof.
  unfold cache_key. intros E.
  destruct (key_split _ _ _ _ (show_nat_digits c1) (show_nat_digits c2) E) as [-> Ed].
  split; [reflexivity|].
  rewrite <- (read_show_nat c1), <- (read_show_nat c2), Ed. reflexivity.
Qed.

Lemma search_pexels_images_cache (key : string) (cache : image_cache) (resp : http_outcome)
  (query : string) (count : nat) :
  snd (search_pexels_images key cache resp query count) = cache \/
  snd (search_pexels_images key cache resp query count) =
    cache_set (cache_key query count)
      (fst (search_pexels_images key cache resp query count)) cache.
Proof.
  unfold search_pexels_images.
  destruct (String.eqb key ""); [left; reflexivity|].
  destruct (cache_lookup _ cache); [left; reflexivity|].
  destruct resp as [status photos|]; [|left; reflexivity].
  destruct (status =? 200); [right | left]; reflexivity.
Qed.

Lemma search_pexels_images_lookup (key : string) (c c' : image_cache) (resp : http_outcome)
  (query : string) (count : nat) :
  cache_lookup (cache_key query count) c = cache_lookup (cache_key query count) c' ->
  fst (search_pexels_images key c resp query count) =
  fst (search_pexels_images key c' resp query count).
Proof.
  unfold search_pexels_images, cache_key. intros E. rewrite E.
  destruct (String.eqb key ""); [reflexivity|].
  destruct (cache_lookup _ c'); [reflexivity|].
  destruct resp as [status photos|]; [|reflexivity].
  destruct (status =? 200); reflexivity.
Qed.

Lemma prefix_app_same (a b c : string) :
  String.prefix (a ++ b) (a ++ c) = String.prefix b c.
Proof.
  induction a as [|x a IH]; simpl; [reflexivity|].
  destruct (ascii_dec x x) as [_|n]; [exact IH | congruence].
Qed.

Lemma placeholders_ok (query : string) (count : nat) :
  length (_placeholders query count) <= count /\ alts_for query (_placeholders query count).
Proof.
  split; [rewrite placeholders_length; lia|].
  unfold alts_for. apply Forall_forall. intros img Hi.
  unfold _placeholders in Hi. apply In_firstn in Hi.
  simpl in Hi. destruct Hi as [<-|[<-|[<-|[]]]]; simpl;
    rewrite prefix_app_same; reflexivity.
Qed.

(** X1: a successful answer is memoised: with an API key, once a search
    for [query] and [count] has received a 200 answer, repeating the same
    search returns the same images and leaves the cache as it is, whatever
    the service would answer the second time. *)
Theorem search_pexels_images_memo (pexels_api_key : string) (cache : image_cache)
  (photos : list photo) (resp2 : http_outcome) (query : string) (count : nat)
  (Hk : pexels_api_key <> "") :
  let res := search_pexels_images pexels_api_key cache (HttpResponse 200 photos) query count in
  search_pexels_images pexels_api_key (snd res) resp2 query count = res.
Proof.
  intros res. unfold res, search_pexels_images.
  apply String.eqb_neq in Hk. rewrite Hk.
  destruct (cache_lookup _ cache) as [v|] eqn:L; cbn [snd]; [rewrite L; reflexivity|].
  cbn [Nat.eqb]. unfold cache_set. cbn [snd cache_lookup]. rewrite String.eqb_refl. reflexivity.
Qed.

Lemma search_pexels_images_memo_witness :
  "pexels-key" <> "" /\
  search_pexels_images "pexels-key"
    (snd (search_pexels_images "pexels-key" [] (HttpResponse 200 [sample_photo]) "glass skin" 3))
    HttpException "glass skin" 3 =
  search_pexels_images "pexels-key" [] (HttpResponse 200 [sample_photo]) "glass skin" 3.
Proof.
  split; [discriminate|].
  apply (search_pexels_images_memo "pexels-key" [] [sample_photo] HttpException "glass skin" 3).
  discriminate.
Defined.

(** X2: cache keys never collide: a search stores its answer under the key
    of its own query and count only, so it does not change what a later
    search for a different query or a different count returns. *)
Theorem search_pexels_images_other_key (pexels_api_key : string) (cache : image_cache)
  (resp1 resp2 : http_outcome) (q1 q2 : string) (c1 c2 : nat)
  (Hne : q1 <> q2 \/ c1 <> c2) :
  fst (search_pexels_images pexels_api_key
         (snd (search_pexels_images pexels_api_key cache resp1 q1 c1)) resp2 q2 c2) =
  fst (search_pexels_images pexels_api_key cache resp2 q2 c2).
Proof.
  apply search_pexels_images_lookup.
  destruct (search_pexels_images_cache pexels_api_key cache resp1 q1 c1) as [E|E];
    rewrite E; [reflexivity|].
  unfold cache_set. simpl.
  destruct (String.eqb (cache_key q2 c2) (cache_key q1 c1)) eqn:K; [|reflexivity].
  apply String.eqb_eq, cache_key_inj in K as [-> ->]. destruct Hne; congruence.
Qed.

Lemma search_pexels_images_other_key_witness :
  ("glass skin" <> "sun care" \/ 3 <> 3) /\
  fst (search_pexels_images "pexels-key"
         (snd (search_pexels_images "pexels-key" [] (HttpResponse 200 [sample_photo]) "glass skin" 3))
         HttpException "sun care" 3) =
  fst (search_pexels_images "pexels-key" [] HttpException "sun care" 3).
Proof.
  split; [left; discriminate|].
  apply (search_pexels_images_other_key "pexels-key" [] (HttpResponse 200 [sample_photo])
           HttpException "glass skin" "sun care" 3 3).
  left. discriminate.
Defined.

Lemma search_pexels_images_result_ok (pexels_api_key : string) (cache : image_cache)
  (resp : http_outcome) (query : string) (count : nat) (Hc : cache_ok cache) :
  let res := search_pexels_images pexels_api_key cache resp query count in
  length (fst res) <= count /\ alts_for query (fst res).
Proof.
  unfold search_pexels_images.
  destruct (String.eqb pexels_api_key ""); [apply placeholders_ok|].
  destruct (cache_lookup _ cache) as [v|] eqn:L; [apply (Hc _ _ _ L)|].
  destruct resp as [status photos|]; [|apply placeholders_ok].
  destruct (status =? 200); [|apply placeholders_ok]. cbn [fst]. split.
  - rewrite length_map. apply firstn_le_length.
  - unfold alts_for. apply Forall_forall. intros img Hi.
    apply in_map_iff in Hi as [ph [<- _]]. cbn [i_alt photo_to_image].
    rewrite <- string_app_assoc. apply prefix_self_app.
Qed.

(** X3: the cache only ever holds what the search built: if every cached
    entry for a query and count has at most [count] images whose alt text
    starts with the query, this stays true after a search, and the images
    a search returns (placeholders, cached or fresh) are at most [count],
    each with an alt text starting with ["{query} - "]. *)
Theorem search_pexels_images_cache_ok (pexels_api_key : string) (cache : image_cache)
  (resp : http_outcome) (query : string) (count : nat) (Hc : cache_ok cache) :
  let res := search_pexels_images pexels_api_key cache resp query count in
  cache_ok (snd res) /\ length (fst res) <= count /\ alts_for query (fst res).
Proof.
  intros res.
  pose proof (search_pexels_images_result_ok pexels_api_key cache resp query count Hc) as Hr.
  split; [|exact Hr].
  destruct (search_pexels_images_cache pexels_api_key cache resp query count) as [E|E];
    fold res in E; rewrite E; [exact Hc|].
  intros q n v L. unfold cache_set in L. cbn [cache_lookup] in L.
  destruct (String.eqb (cache_key q n) (cache_key query count)) eqn:K.
  - apply String.eqb_eq, cache_key_inj in K as [-> ->]. injection L as <-. exact Hr.
  - exact (Hc _ _ _ L).
Qed.

Lemma search_pexels_images_cache_ok_witness :
  cache_ok [] /\
  length (fst (search_pexels_images "pexels-key" [] (HttpResponse 200 [sample_photo]) "glass skin" 3)) <= 3.
Proof.
  assert (H0 : cache_ok []) by (intros q n v L; discriminate L).
  split; [exact H0|].
  exact (proj1 (proj2 (search_pexels_images_cache_ok "pexels-key" [] (HttpResponse 200 [sample_photo])
                         "glass skin" 3 H0))).
Defined.

(** ** Further properties: trends *)

Lemma google_keys (pytrends_ready : bool) (resp : trends_response) (keywords : list string)
  (kw : string) (x : nat * string) :
  In (kw, x) (get_google_trends pytrends_ready resp keywords) -> In kw keywords.
Proof.
  unfold get_google_trends. destruct pytrends_ready; cbn [negb]; [|intros []].
  destruct resp as [|[df|]]; try (intros []).
  destruct (df_empty df); [intros []|].
  intros H. apply in_flat_map in H as [k [Hk Hin]].
  destruct (find _ df) as [[c s]|]; [|destruct Hin].
  destruct Hin as [E|[]]. injection E as -> _. exact Hk.
Qed.

Lemma first5_high (kw : string) :
  In kw (firstn 5 beauty_keywords) -> _competition kw = "high".
Proof. intros H. simpl in H. repeat (destruct H as [<-|H]; [reflexivity|]). destruct H. Qed.

Lemma filter_none {A} (f : A -> bool) (l : list A) :
  (forall x, In x l -> f x = false) -> filter f l = [].
Proof.
  induction l as [|x l IH]; intros H; simpl; [reflexivity|].
  rewrite H by (left; reflexivity). apply IH. intros y Hy. apply H. right. exact Hy.
Qed.

Lemma match_app_cons {A} (l : list A) (x : A) (ys d : list A) :
  match (l ++ x :: ys)%list with [] => d | _ :: _ => (l ++ x :: ys)%list end = (l ++ x :: ys)%list.
Proof. destruct l; reflexivity. Qed.

(** X5: the Google Trends data never reaches the trending list: the five
    keywords it is asked about all have two words, so their entries are
    tagged "high" and filtered out. Whatever pytrends returns (or whether
    it is installed at all), the list is the one computed without it. *)
Theorem get_trending_topics_google_ignored (pytrends_ready : bool) (resp : trends_response)
  (month : nat) (r : nat -> nat) :
  get_trending_topics pytrends_ready resp month r =
  get_trending_topics false TrendsException month r.
Proof.
  unfold get_trending_topics.
  assert (Hlen : length (get_pinterest_trends month r) = length (seasonal month)).
  { rewrite <- (pinterest_keywords month r), length_map. reflexivity. }
  pose proof (seasonal_length month) as Hs.
  destruct (get_pinterest_trends month r) as [|t0 ts] eqn:Ep; [simpl in Hlen; lia|].
  set (G := flat_map _ (get_google_trends pytrends_ready resp _)).
  cbn zeta.
  rewrite !match_app_cons, !filter_app.
  rewrite (filter_none _ G); [reflexivity|].
  intros t Ht. unfold G in Ht. apply in_flat_map in Ht as [[kw [i tr]] [Hg Ht]].
  destruct (MIN_KEYWORD_INTEREST <=? i); [|destruct Ht].
  destruct Ht as [<-|[]]. cbn [t_competition t_interest].
  rewrite (first5_high kw (google_keys _ _ _ _ _ Hg)). cbn. apply andb_false_r.
Qed.

Lemma fold_add_acc (s : list nat) : forall a, fold_left Nat.add s a = a + fold_left Nat.add s 0.
Proof.
  induction s as [|x s IH]; intros a; simpl; [lia|].
  rewrite (IH (a + x)), (IH x). lia.
Qed.

Lemma series_mean_le (s : list nat) (b : nat) :
  Forall (fun x => x <= b) s -> series_mean s <= b.
Proof.
  intros H. unfold series_mean.
  assert (Hsum : fold_left Nat.add s 0 <= length s * b).
  { induction H as [|x s Hx Hs IH]; simpl; [lia|].
    rewrite fold_add_acc. lia. }
  apply Nat.Div0.div_le_upper_bound. lia.
Qed.

(** X7: the interest [get_google_trends] reports for a keyword is the
    integer part of the mean of its column, so it never exceeds a bound of
    the frame's values (100 for Google Trends data). *)
Theorem get_google_trends_interest_bound (pytrends_ready : bool)
  (df : list (string * list nat)) (keywords : list string) (b : nat)
  (Hb : Forall (fun col => Forall (fun x => x <= b) (snd col)) df) :
  forall kw interest trend,
    In (kw, (interest, trend)) (get_google_trends pytrends_ready (TrendsFrame (Some df)) keywords) ->
    interest <= b.
Proof.
  intros kw interest trend H.
  unfold get_google_trends in H. destruct pytrends_ready; cbn [negb] in H; [|destruct H].
  destruct (df_empty df); [destruct H|].
  apply in_flat_map in H as [k [_ Hin]].
  destruct (find _ df) as [[c s]|] eqn:F; [|destruct Hin].
  destruct Hin as [E|[]]. injection E as _ <- _.
  apply find_some in F as [Hc _]. rewrite Forall_forall in Hb.
  apply series_mean_le, (Hb _ Hc).
Qed.

Lemma get_google_trends_interest_bound_witness :
  Forall (fun col => Forall (fun x => x <= 100) (snd col))
         [("skincare routine", [80; 90; 100]); ("makeup trends", [40; 60])] /\
  (forall kw interest trend,
     In (kw, (interest, trend))
        (get_google_trends true (TrendsFrame (Some [("skincare routine", [80; 90; 100]);
                                                    ("makeup trends", [40; 60])]))
                           (firstn 5 beauty_keywords)) ->
     interest <= 100).
Proof.
  assert (Hb : Forall (fun col => Forall (fun x => x <= 100) (snd col))
                 [("skincare routine", [80; 90; 100]); ("makeup trends", [40; 60])])
    by (repeat constructor; simpl; lia).
  split; [exact Hb|].
  exact (get_google_trends_interest_bound true _ (firstn 5 beauty_keywords) 100 Hb).
Defined.

(** ** Further properties: titles, meta descriptions and labels *)

Lemma fromkeys_extends (l : list string) : forall acc, exists s,
  fold_left (fun acc x => if existsb (String.eqb x) acc then acc else (acc ++ [x])%list) l acc
  = (acc ++ s)%list.
Proof.
  induction l as [|x l IH]; intros acc; simpl; [exists []; symmetry; apply app_nil_r|].
  destruct (existsb (String.eqb x) acc).
  - apply IH.
  - destruct (IH (acc ++ [x])%list) as [s Hs]. exists (x :: s). rewrite Hs, <- app_assoc. reflexivity.
Qed.

(** X9: the labels always start with the four base labels "beauty",
    "skincare", "beauty tips" and "glow with helen", in this order, so
    there are at least four of them. *)
Theorem generate_labels_base (keyword : string) :
  firstn 4 (generate_labels keyword) = base_labels /\ 4 <= length (generate_labels keyword).
Proof.
  unfold generate_labels, fromkeys. rewrite fold_left_app.
  destruct (fromkeys_extends (app (topic_words keyword) (category_labels keyword))
              (fold_left (fun acc x => if existsb (String.eqb x) acc then acc else (acc ++ [x])%list)
                         base_labels [])) as [s Hs].
  rewrite Hs. change (fold_left _ base_labels []) with base_labels.
  split.
  - rewrite firstn_firstn. reflexivity.
  - rewrite length_firstn, length_app. simpl. lia.
Qed.

Lemma contains_refl (n : string) : contains n n = true.
Proof. rewrite <- (string_app_nil_r n) at 2. apply contains_self_app. Qed.

(** X10: the SEO title always contains the title-cased topic, whichever
    template is drawn and whether or not the shorter templates are used. *)
Theorem generate_seo_title_has_topic (year r1 r2 : nat) (keyword : string) :
  contains (title keyword) (generate_seo_title year r1 r2 keyword) = true.
Proof.
  unfold generate_seo_title, pick.
  destruct (MAX_TITLE_LENGTH <? _).
  - unfold short_title_templates; cbn [List.length].
    destruct (mod_cases3 r2) as [H|[H|H]]; rewrite H; cbn [nth];
      first [apply contains_self_app | apply contains_app_r, contains_self_app].
  - unfold title_templates; cbn [List.length].
    destruct (mod_cases7 r1) as [H|[H|[H|[H|[H|[H|H]]]]]]; rewrite H; cbn [nth];
      first [apply contains_self_app | apply contains_app_r, contains_self_app
            | apply contains_app_r, contains_refl].
Qed.

Lemma take_all (n : nat) (s : string) : String.length s <= n -> take n s = s.
Proof.
  revert n; induction s as [|c s IH]; intros [|n] H; simpl in *; try reflexivity; try lia.
  rewrite IH by lia. reflexivity.
Qed.

Lemma take_app (n : nat) (a b : string) :
  String.length a <= n -> take n (a ++ b) = a ++ take (n - String.length a) b.
Proof.
  revert n; induction a as [|c a IH]; intros [|n] H; simpl in *; try lia; try reflexivity.
  rewrite IH by lia. reflexivity.
Qed.

(** X11: the meta description always contains the topic as given when the
    topic has at most 146 characters: the templates that fit are returned
    whole, and the fallback sentence starts with "Complete {keyword}",
    which survives the cut to 155 characters. *)
Theorem generate_meta_description_has_topic (r : nat) (keyword title_ : string)
  (Hk : String.length keyword <= 146) :
  contains keyword (generate_meta_description r keyword title_) = true.
Proof.
  unfold generate_meta_description, pick, META_DESC_LENGTH.
  destruct (155 <? String.length _) eqn:E.
  - rewrite <- string_app_assoc, take_app by (rewrite append_length; simpl; lia).
    apply contains_app_l, contains_app_r, contains_refl.
  - apply Nat.ltb_ge in E. rewrite take_all by exact E.
    unfold meta_templates; cbn [List.length] in *.
    destruct (mod_cases3 r) as [H|[H|H]]; rewrite H; cbn [nth];
      apply contains_app_r, contains_self_app.
Qed.

Lemma generate_meta_description_has_topic_witness :
  String.length "glass skin routine" <= 146 /\
  contains "glass skin routine" (generate_meta_description 0 "glass skin routine" "") = true.
Proof.
  split; [vm_compute; lia|].
  apply generate_meta_description_has_topic. vm_compute. lia.
Defined.

(** ** Further properties: configuration and publishing *)

Lemma is_empty_false (s : string) : is_empty s = false <-> s <> "".
Proof. unfold is_empty. apply String.eqb_neq. Qed.

(** X12: [Config.validate] reports no issue exactly when the Pexels key, the
    Blogger client id and secret, and the blog id are all set; it reports
    at most three issues. *)
Theorem validate_empty_iff (cfg : config) :
  (validate cfg = [] <->
     PEXELS_API_KEY cfg <> "" /\ BLOGGER_CLIENT_ID cfg <> "" /\
     BLOGGER_CLIENT_SECRET cfg <> "" /\ BLOGGER_BLOG_ID cfg <> "") /\
  length (validate cfg) <= 3.
Proof.
  unfold validate. rewrite <- !is_empty_false.
  destruct (is_empty (PEXELS_API_KEY cfg)), (is_empty (BLOGGER_CLIENT_ID cfg)),
    (is_empty (BLOGGER_CLIENT_SECRET cfg)), (is_empty (BLOGGER_BLOG_ID cfg));
    cbn; (split; [|lia]); split; intros H; try discriminate;
    try (decompose [and] H; discriminate); repeat split; reflexivity.
Qed.


(** ** Further properties: the files written *)

Lemma replace_space_ok (s : string) :
  all_chars not_space (replace_space s) = true /\
  String.length (replace_space s) = String.length s.
Proof.
  induction s as [|c s [IH1 IH2]]; [split; reflexivity|].
  cbn [replace_space all_chars String.length]. rewrite IH1, IH2. split; [|reflexivity].
  destruct (Ascii.eqb c " ") eqn:E; [reflexivity|]. unfold not_space. rewrite E. reflexivity.
Qed.

(** X15: the file name offered by the download button contains no space
    and is the title, with each space turned into an underscore, followed
    by ".html" (five more characters). *)
Theorem download_file_name_no_space (title_ : string) :
  all_chars not_space (download_file_name title_) = true /\
  String.length (download_file_name title_) = String.length title_ + 5.
Proof.
  destruct (replace_space_ok title_) as [H1 H2]. unfold download_file_name.
  rewrite all_chars_app, H1, append_length, H2. split; reflexivity.
Qed.

Lemma header_lines (a b : string) :
  all_chars not_newline a = true ->
  first_line ((a ++ nl) ++ b) = a /\ after_first_line ((a ++ nl) ++ b) = b.
Proof.
  induction a as [|c a IH]; intros H; [split; reflexivity|].
  cbn [all_chars] in H. apply andb_true_iff in H as [Hc H].
  unfold not_newline in Hc. apply negb_true_iff in Hc.
  cbn [append first_line after_first_line]. rewrite Hc. destruct (IH H) as [-> ->].
  split; reflexivity.
Qed.

Lemma save_post_read (title_ html filename : string) (fs : files) :
  all_chars not_newline title_ = true ->
  exists content,
    file_read filename (save_post_to_file SaveOk title_ html filename fs) = Some content /\
    first_line content = "<!-- " ++ title_ ++ " -->" /\ after_first_line content = html.
Proof.
  intros Ht. exists (saved_text title_ html). unfold saved_text.
  split; [unfold save_post_to_file, saved_text; cbn [file_read]; rewrite String.eqb_refl; reflexivity|].
  replace ("<!-- " ++ title_ ++ " -->" ++ nl) with (("<!-- " ++ title_ ++ " -->") ++ nl)
    by (rewrite !string_app_assoc; reflexivity).
  apply header_lines. rewrite !all_chars_app, Ht. reflexivity.
Qed.

Lemma take_prefix (k : nat) (s : string) : String.prefix (take k s) s = true.
Proof.
  revert s; induction k as [|k IH]; intros [|c s]; try reflexivity.
  cbn [take String.prefix]. destruct (ascii_dec c c) as [_|N]; [apply IH | congruence].
Qed.

(** X16: [save_post_to_file] round trip: when both writes succeed, the
    file holds a first line "<!-- {title} -->" followed by the HTML
    exactly (for a title without a newline); when [open] fails, the error
    is swallowed and no file changes; when a write fails after [open], the
    error is swallowed too and the file, truncated by [open], holds only
    the first [k] characters of that text (nothing at all for [k = 0]);
    other files are never touched. *)
Theorem save_post_to_file_roundtrip (o : save_outcome) (title_ html filename : string)
  (fs : files) (Ht : all_chars not_newline title_ = true) :
  let fs' := save_post_to_file o title_ html filename fs in
  (o = SaveOk -> exists content, file_read filename fs' = Some content /\
     first_line content = "<!-- " ++ title_ ++ " -->" /\ after_first_line content = html) /\
  (o = OpenError -> fs' = fs) /\
  (forall k, o = WriteError k -> exists content, file_read filename fs' = Some content /\
     String.prefix content (saved_text title_ html) = true /\
     String.length content = Nat.min k (String.length (saved_text title_ html))) /\
  (forall other, other <> filename -> file_read other fs' = file_read other fs).
Proof.
  intros fs'. split; [|split; [|split]].
  - intros ->. apply save_post_read, Ht.
  - intros ->. reflexivity.
  - intros k ->. exists (take k (saved_text title_ html)).
    unfold fs', save_post_to_file. cbn [file_read]. rewrite String.eqb_refl.
    split; [reflexivity|]. split; [apply take_prefix | apply take_length].
  - intros other Ho. unfold fs', save_post_to_file. apply String.eqb_neq in Ho.
    destruct o; cbn [file_read]; rewrite ?Ho; reflexivity.
Qed.

Lemma save_post_to_file_roundtrip_witness :
  all_chars not_newline "Glass Skin Routine: Complete Guide" = true /\
  file_read "post.html"
    (save_post_to_file (WriteError 0) "Glass Skin Routine: Complete Guide" "<p>hi</p>"
       "post.html" [("post.html", "old text")]) = Some "".
Proof.
  assert (Ht : all_chars not_newline "Glass Skin Routine: Complete Guide" = true)
    by reflexivity.
  split; [exact Ht|].
  destruct (proj1 (proj2 (proj2 (save_post_to_file_roundtrip (WriteError 0) _ "<p>hi</p>"
              "post.html" [("post.html", "old text")] Ht))) 0 eq_refl)
    as (content & Hr & _ & Hl).
  rewrite Hr. destruct content; [reflexivity | discriminate Hl].
Defined.

Lemma digit_not_newline (c : ascii) : is_digit c = true -> not_newline c = true.
Proof.
  intros H. unfold not_newline. destruct (Ascii.eqb_spec c (ascii_of_nat 10)) as [->|_];
    [vm_compute in H; discriminate H | reflexivity].
Qed.

Lemma example_title_no_newline (year r1 r2 : nat) :
  all_chars not_newline (generate_seo_title year r1 r2 "glass skin routine") = true.
Proof.
  unfold generate_seo_title, pick.
  destruct (MAX_TITLE_LENGTH <? _).
  - unfold short_title_templates; cbn [List.length].
    destruct (mod_cases3 r2) as [H|[H|H]]; rewrite H; vm_compute; reflexivity.
  - unfold title_templates; cbn [List.length].
    destruct (mod_cases7 r1) as [H|[H|[H|[H|[H|[H|H]]]]]]; rewrite H; cbn [nth];
      rewrite ?all_chars_app,
        ?(all_chars_impl _ _ _ digit_not_newline (show_nat_digits year));
      vm_compute; reflexivity.
Qed.

(** X17: [generate_example_post] saves what it returns: when
    example_post.html is opened and written without error, that file
    holds the returned title
    on its first line, as "<!-- {title} -->", followed by the returned
    HTML exactly, whatever the random draws and the Pexels answer. *)
Theorem generate_example_post_saved (cfg : config) (year : nat) (rp : nat -> nat)
  (r1 r2 rm ri rc : nat) (resp : http_outcome) (fs : files) :
  let '(post, fs') := generate_example_post cfg year rp r1 r2 rm ri rc resp SaveOk fs in
  exists content, file_read "example_post.html" fs' = Some content /\
    first_line content = "<!-- " ++ ex_title post ++ " -->" /\
    after_first_line content = ex_html post.
Proof.
  unfold generate_example_post. cbn [ex_title ex_html].
  apply save_post_read, example_title_no_newline.
Qed.
